(** * mididings: the [_mididings] extension module (src/python_module.cc)

    The file under study is the Boost.Python glue of mididings: the
    module-initialisation function [BOOST_PYTHON_MODULE(_mididings)], which
    registers every function, class, operator and converter the host
    (Python) layer can see, and the [EngineWrap] class, which forwards the
    scene-switch notification of the engine to the host object.

    The module-initialisation function is embedded as the state-passing
    program it is: each statement transforms the module under construction,
    and the statements are sequenced in source order.  [EngineWrap] is
    embedded in a small state-and-exception monad over the interpreter
    state (lock depth, error indicator, observable trace, host state);
    the host code it reaches is a parameter. *)

From Stdlib Require Import String List ZArith Bool Lia.
Import ListNotations.
Local Open Scope string_scope.
Local Open Scope Z_scope.

(* ===================================================================== *)
(** ** Build configuration *)
(* ===================================================================== *)

(** The two preprocessor switches of config.hh that python_module.cc
    tests with [#ifdef]. *)
Record config : Type := {
  ENABLE_TEST : bool;
  ENABLE_DEBUG_STATS : bool
}.

Definition release_build : config :=
  {| ENABLE_TEST := false; ENABLE_DEBUG_STATS := false |}.

Definition test_build : config :=
  {| ENABLE_TEST := true; ENABLE_DEBUG_STATS := false |}.

(* ===================================================================== *)
(** ** C++ entities named by the bindings *)
(* ===================================================================== *)

(** The C++ classes that appear as template arguments of [class_<...>],
    [bases<...>] or [boost::shared_ptr<...>]. *)
Inductive cpp_class : Type :=
| c_Engine | c_EngineWrap
| c_Patch | c_Patch_Module | c_Patch_Chain | c_Patch_Fork
| c_Patch_Single | c_Patch_Extended
| c_MidiEvent
| c_Unit | c_UnitEx | c_Filter
| c_Pass | c_TypeFilter | c_InvertedFilter
| c_PortFilter | c_ChannelFilter | c_KeyFilter | c_VelocityFilter
| c_CtrlFilter | c_CtrlValueFilter | c_ProgramFilter | c_SysExFilter
| c_Port | c_Channel | c_Transpose | c_Velocity | c_VelocitySlope
| c_CtrlMap | c_CtrlRange | c_CtrlCurve | c_PitchbendRange
| c_Generator | c_SysExGenerator
| c_Sanitize | c_SceneSwitch | c_SubSceneSwitch
| c_Call
| c_Backend.

Definition cpp_class_eq_dec (a b : cpp_class) : {a = b} + {a <> b}.
Proof. decide equality. Defined.

Definition cpp_class_eqb (a b : cpp_class) : bool :=
  if cpp_class_eq_dec a b then true else false.

(** The C++ types that appear in [init<...>] signatures and in the
    converter registrations.  Typedefs whose definition lives in a header
    outside this file keep their name. *)
Inductive cpp_type : Type :=
| t_bool
| t_int
| t_float
| t_unsigned_char
| t_std_string
| t_std_vector (elt : cpp_type)
| t_const_ref (t : cpp_type)
| t_shared_ptr (c : cpp_class)
| t_bp_object                      (* boost::python::object *)
| t_class (c : cpp_class)
| t_Patch_ModulePtr                (* Patch::ModulePtr *)
| t_Patch_ModuleVector             (* Patch::ModuleVector *)
| t_MidiEvent_SysExData            (* MidiEvent::SysExData *)
| t_MidiEventType.                 (* enum MidiEventType *)

Definition cpp_type_eq_dec (a b : cpp_type) : {a = b} + {a <> b}.
Proof. decide equality; apply cpp_class_eq_dec. Defined.

Definition cpp_type_eqb (a b : cpp_type) : bool :=
  if cpp_type_eq_dec a b then true else false.

(** [&Class::name]: a pointer to a member (function or data). *)
Inductive cpp_member : Type :=
| member (c : cpp_class) (name : string).

Inductive call_policy : Type :=
| default_call_policies
| return_by_value.       (* bp::return_value_policy<bp::return_by_value>() *)

Inductive self_operator : Type :=
| op_eq      (* bp::self == bp::self *)
| op_ne.     (* bp::self != bp::self *)

(** One link of the [.def(...)] chain that follows a [class_<...>(...)]. *)
Inductive class_def : Type :=
| d_def (py_name : string) (f : cpp_member) (policy : call_policy)
| d_def_readwrite (py_name : string) (field : cpp_member)
| d_def_operator (op : self_operator).

(** The constructor specification of a class: [bp::no_init], or
    [init<T1, ..., Tn>()]. *)
Inductive init_spec : Type :=
| no_init
| init (sig : list cpp_type).

(** The state of one [class_<T, Held, bases<...>, noncopyable>] object. *)
Record class_ : Type := {
  wrapped : cpp_class;
  held : option cpp_class;
  bases : list cpp_class;
  noncopyable : bool;
  py_name : string;
  ctor : init_spec;
  defs : list class_def;
  pickling : bool
}.

(** [class_<T, ...>(name, init)] before any [.def]. *)
Definition mk_class (T : cpp_class) (H : option cpp_class)
           (B : list cpp_class) (nc : bool) (name : string)
           (i : init_spec) : class_ :=
  {| wrapped := T; held := H; bases := B; noncopyable := nc;
     py_name := name; ctor := i; defs := []; pickling := false |}.

Definition add_def (d : class_def) (c : class_) : class_ :=
  {| wrapped := wrapped c; held := held c; bases := bases c;
     noncopyable := noncopyable c; py_name := py_name c; ctor := ctor c;
     defs := defs c ++ [d]; pickling := pickling c |}.

Definition def (name : string) (f : cpp_member) : class_ -> class_ :=
  add_def (d_def name f default_call_policies).

Definition def_with (name : string) (f : cpp_member) (p : call_policy)
  : class_ -> class_ :=
  add_def (d_def name f p).

Definition def_readwrite (name : string) (f : cpp_member) : class_ -> class_ :=
  add_def (d_def_readwrite name f).

Definition def_operator (o : self_operator) : class_ -> class_ :=
  add_def (d_def_operator o).

Definition enable_pickling (c : class_) : class_ :=
  {| wrapped := wrapped c; held := held c; bases := bases c;
     noncopyable := noncopyable c; py_name := py_name c; ctor := ctor c;
     defs := defs c; pickling := true |}.

(** [#ifdef FLAG  .def(...)  #endif] inside a chain. *)
Definition ifdef (flag : bool) (f : class_ -> class_) (c : class_) : class_ :=
  if flag then f c else c.

Notation "c |> f" := (f c) (at level 45, left associativity, only parsing).

(* ===================================================================== *)
(** ** The module under construction *)
(* ===================================================================== *)

(** A class registered in the module, with the scope it was registered in
    ([[]] for the module itself, [["Patch"]] inside [Patch]). *)
Record registered_class : Type := {
  rc_scope : list string;
  rc_class : class_
}.

Inductive converter : Type :=
| vector_converters (elt : cpp_type)
| map_converters (key value : cpp_type)
| enum_converters (e : cpp_type).

Record py_module : Type := {
  threads_initialized : bool;
  functions : list (string * cpp_member * call_policy);
  classes : list registered_class;
  converters : list converter;
  atexit : list string;
  current_scope : list string
}.

Definition empty_module : py_module :=
  {| threads_initialized := false; functions := []; classes := [];
     converters := []; atexit := []; current_scope := [] |}.

(** A statement of the module body. *)
Definition stmt : Type := py_module -> py_module.

Definition seq (s1 s2 : stmt) : stmt := fun m => s2 (s1 m).
Notation "s1 ;; s2" := (seq s1 s2) (at level 61, right associativity).

Definition skip : stmt := fun m => m.

Definition PyEval_InitThreads : stmt := fun m =>
  {| threads_initialized := true; functions := functions m;
     classes := classes m; converters := converters m;
     atexit := atexit m; current_scope := current_scope m |}.

(** Free-standing [def(name, &f, policy)]. *)
Definition module_def (name : string) (f : cpp_member) (p : call_policy)
  : stmt := fun m =>
  {| threads_initialized := threads_initialized m;
     functions := functions m ++ [(name, f, p)];
     classes := classes m; converters := converters m;
     atexit := atexit m; current_scope := current_scope m |}.

(** A [class_<...>(...) ... ;] statement: the finished class is an
    attribute of the current scope. *)
Definition register (c : class_) : stmt := fun m =>
  {| threads_initialized := threads_initialized m;
     functions := functions m;
     classes := classes m
                ++ [{| rc_scope := current_scope m; rc_class := c |}];
     converters := converters m;
     atexit := atexit m; current_scope := current_scope m |}.

Definition set_scope (sc : list string) : stmt := fun m =>
  {| threads_initialized := threads_initialized m;
     functions := functions m; classes := classes m;
     converters := converters m;
     atexit := atexit m; current_scope := sc |}.

(** [{ bp::scope s = class_<...>(...); body }]: the class is registered in
    the enclosing scope, the body runs with the class as current scope,
    and the enclosing scope is restored when [s] is destroyed. *)
Definition in_scope (c : class_) (body : stmt) : stmt := fun m =>
  let outer := current_scope m in
  set_scope outer
    (body (set_scope (outer ++ [py_name c]) (register c m))).

Definition register_converter (c : converter) : stmt := fun m =>
  {| threads_initialized := threads_initialized m;
     functions := functions m; classes := classes m;
     converters := converters m ++ [c];
     atexit := atexit m; current_scope := current_scope m |}.

Definition std_atexit (handler : string) : stmt := fun m =>
  {| threads_initialized := threads_initialized m;
     functions := functions m; classes := classes m;
     converters := converters m;
     atexit := atexit m ++ [handler]; current_scope := current_scope m |}.

(** [#ifdef FLAG  statement  #endif] at statement level. *)
Definition ifdef_stmt (flag : bool) (s : stmt) : stmt :=
  if flag then s else skip.

(* ===================================================================== *)
(** ** BOOST_PYTHON_MODULE(_mididings) *)
(* ===================================================================== *)

Definition std_vector_string_cref : cpp_type :=
  t_const_ref (t_std_vector t_std_string).
Definition std_vector_int_cref : cpp_type :=
  t_const_ref (t_std_vector t_int).
Definition std_vector_float_cref : cpp_type :=
  t_const_ref (t_std_vector t_float).

(** [class_<T, bases<B>, noncopyable>(name, init)]: the shape of every
    unit binding. *)
Definition unit_class (T B : cpp_class) (name : string) (i : init_spec)
  : class_ :=
  mk_class T None [B] true name i.

Definition module_body (cfg : config) : stmt :=
  PyEval_InitThreads ;;

  (* list of supported backends *)
  module_def "available_backends" (member c_Backend "available")
             return_by_value ;;

  (* main engine class, derived from in python *)
  register
    (mk_class c_Engine (Some c_EngineWrap) [] true "Engine"
       (init [t_const_ref t_std_string; t_const_ref t_std_string;
              std_vector_string_cref; std_vector_string_cref; t_bool])
     |> def "connect_ports" (member c_Engine "connect_ports")
     |> def "add_scene" (member c_Engine "add_scene")
     |> def "set_processing" (member c_Engine "set_processing")
     |> def "start" (member c_Engine "start")
     |> def "switch_scene" (member c_Engine "switch_scene")
     |> def "current_scene" (member c_Engine "current_scene")
     |> def "current_subscene" (member c_Engine "current_subscene")
     |> def "output_event" (member c_Engine "output_event")
     |> def "time" (member c_Engine "time")
     |> ifdef (ENABLE_TEST cfg)
          (def "process" (member c_Engine "process_test"))) ;;

  (* patch class, derived from in python *)
  in_scope
    (mk_class c_Patch None [] true "Patch" (init [t_Patch_ModulePtr]))
    (register (mk_class c_Patch_Module None [] true "Module" no_init) ;;
     register (mk_class c_Patch_Chain None [c_Patch_Module] true "Chain"
                 (init [t_Patch_ModuleVector])) ;;
     register (mk_class c_Patch_Fork None [c_Patch_Module] true "Fork"
                 (init [t_Patch_ModuleVector; t_bool])) ;;
     register (mk_class c_Patch_Single None [c_Patch_Module] true "Single"
                 (init [t_shared_ptr c_Unit])) ;;
     register (mk_class c_Patch_Extended None [c_Patch_Module] true
                 "Extended" (init [t_shared_ptr c_UnitEx]))) ;;

  (* midi event class, derived from in python *)
  register
    (mk_class c_MidiEvent None [] false "MidiEvent" (init [])
     |> def_readwrite "type" (member c_MidiEvent "type")
     |> def_readwrite "port_" (member c_MidiEvent "port")
     |> def_readwrite "channel_" (member c_MidiEvent "channel")
     |> def_readwrite "data1" (member c_MidiEvent "data1")
     |> def_readwrite "data2" (member c_MidiEvent "data2")
     |> def_with "_get_sysex_data" (member c_MidiEvent "get_sysex_data")
                 return_by_value
     |> def "_set_sysex_data" (member c_MidiEvent "set_sysex_data")
     |> def_operator op_eq
     |> def_operator op_ne
     |> enable_pickling) ;;

  (* unit base classes *)
  register (mk_class c_Unit None [] true "Unit" no_init) ;;
  register (mk_class c_UnitEx None [] true "UnitEx" no_init) ;;
  register (unit_class c_Filter c_Unit "Filter" no_init) ;;

  (* base *)
  register (unit_class c_Pass c_Unit "Pass" (init [t_bool])) ;;
  register (unit_class c_TypeFilter c_Filter "TypeFilter" (init [t_int])) ;;
  register (unit_class c_InvertedFilter c_Filter "InvertedFilter"
              (init [t_shared_ptr c_Filter; t_bool])) ;;

  (* filters *)
  register (unit_class c_PortFilter c_Filter "PortFilter"
              (init [std_vector_int_cref])) ;;
  register (unit_class c_ChannelFilter c_Filter "ChannelFilter"
              (init [std_vector_int_cref])) ;;
  register (unit_class c_KeyFilter c_Filter "KeyFilter"
              (init [t_int; t_int; std_vector_int_cref])) ;;
  register (unit_class c_VelocityFilter c_Filter "VelocityFilter"
              (init [t_int; t_int])) ;;
  register (unit_class c_CtrlFilter c_Filter "CtrlFilter"
              (init [std_vector_int_cref])) ;;
  register (unit_class c_CtrlValueFilter c_Filter "CtrlValueFilter"
              (init [t_int; t_int])) ;;
  register (unit_class c_ProgramFilter c_Filter "ProgramFilter"
              (init [std_vector_int_cref])) ;;
  register (unit_class c_SysExFilter c_Filter "SysExFilter"
              (init [t_const_ref t_MidiEvent_SysExData; t_bool])) ;;

  (* modifiers *)
  register (unit_class c_Port c_Unit "Port" (init [t_int])) ;;
  register (unit_class c_Channel c_Unit "Channel" (init [t_int])) ;;
  register (unit_class c_Transpose c_Unit "Transpose" (init [t_int])) ;;
  register (unit_class c_Velocity c_Unit "Velocity"
              (init [t_float; t_int])) ;;
  register (unit_class c_VelocitySlope c_Unit "VelocitySlope"
              (init [std_vector_int_cref; std_vector_float_cref; t_int])) ;;
  register (unit_class c_CtrlMap c_Unit "CtrlMap" (init [t_int; t_int])) ;;
  register (unit_class c_CtrlRange c_Unit "CtrlRange"
              (init [t_int; t_int; t_int; t_int; t_int])) ;;
  register (unit_class c_CtrlCurve c_Unit "CtrlCurve"
              (init [t_int; t_float; t_int])) ;;
  register (unit_class c_PitchbendRange c_Unit "PitchbendRange"
              (init [t_int; t_int; t_int; t_int])) ;;

  (* generators *)
  register (unit_class c_Generator c_Unit "Generator"
              (init [t_int; t_int; t_int; t_int; t_int])) ;;
  register (unit_class c_SysExGenerator c_Unit "SysExGenerator"
              (init [t_int; t_const_ref t_MidiEvent_SysExData])) ;;

  (* engine *)
  register (unit_class c_Sanitize c_UnitEx "Sanitize" (init [])) ;;
  register (unit_class c_SceneSwitch c_UnitEx "SceneSwitch"
              (init [t_int; t_int])) ;;
  register (unit_class c_SubSceneSwitch c_UnitEx "SubSceneSwitch"
              (init [t_int; t_int; t_bool])) ;;

  (* call *)
  register (unit_class c_Call c_UnitEx "Call"
              (init [t_bp_object; t_bool; t_bool])) ;;

  (* register to/from-python converters for various types *)
  register_converter (vector_converters t_int) ;;
  register_converter (vector_converters t_unsigned_char) ;;
  register_converter (vector_converters t_float) ;;
  register_converter (vector_converters t_std_string) ;;
  register_converter (vector_converters (t_class c_MidiEvent)) ;;
  register_converter (vector_converters t_Patch_ModulePtr) ;;

  register_converter
    (map_converters t_std_string (t_std_vector t_std_string)) ;;

  register_converter (enum_converters t_MidiEventType) ;;

  ifdef_stmt (ENABLE_DEBUG_STATS cfg) (std_atexit "unload").

(** The module object the host sees after initialisation. *)
Definition _mididings (cfg : config) : py_module :=
  module_body cfg empty_module.

(* ===================================================================== *)
(** ** The host-side view of the module *)
(* ===================================================================== *)

Definition all_classes (m : py_module) : list class_ :=
  map rc_class (classes m).

Definition find_registered (m : py_module) (name : string)
  : option registered_class :=
  find (fun r => String.eqb (py_name (rc_class r)) name) (classes m).

Definition find_class (m : py_module) (name : string) : option class_ :=
  option_map rc_class (find_registered m name).

Definition find_function (m : py_module) (name : string)
  : option (cpp_member * call_policy) :=
  option_map (fun x => (snd (fst x), snd x))
    (find (fun x => String.eqb (fst (fst x)) name) (functions m)).

(** The name under which one [.def] link is visible on the host side. *)
Definition attribute_name (d : class_def) : string :=
  match d with
  | d_def n _ _ => n
  | d_def_readwrite n _ => n
  | d_def_operator op_eq => "__eq__"
  | d_def_operator op_ne => "__ne__"
  end.

Definition attributes (c : class_) : list string :=
  map attribute_name (defs c).

(** The operations (bound member functions) of a class, in source order. *)
Definition operations (c : class_) : list string :=
  flat_map (fun d => match d with d_def n _ _ => [n] | _ => [] end) (defs c).

(** The C++ member an operation name is bound to. *)
Definition bound_member (c : class_) (name : string) : option cpp_member :=
  match find (fun d => match d with
                       | d_def n _ _ => String.eqb n name
                       | _ => false
                       end) (defs c) with
  | Some (d_def _ f _) => Some f
  | _ => None
  end.

Definition has_operator (c : class_) (o : self_operator) : bool :=
  existsb (fun d => match d, o with
                    | d_def_operator op_eq, op_eq => true
                    | d_def_operator op_ne, op_ne => true
                    | _, _ => false
                    end) (defs c).

Definition constructible (c : class_) : bool :=
  match ctor c with no_init => false | init _ => true end.

(** Direct derivation, as declared by [bases<...>]. *)
Definition derives_directly (b : cpp_class) (c : class_) : bool :=
  existsb (cpp_class_eqb b) (bases c).

(** Derivation through any number of [bases<...>] links registered in the
    module.  The fuel bounds the length of the chain. *)
Fixpoint derives_from (m : py_module) (fuel : nat) (b : cpp_class)
         (c : cpp_class) : bool :=
  match fuel with
  | O => false
  | S k =>
      existsb
        (fun r =>
           if cpp_class_eqb (wrapped (rc_class r)) c
           then existsb (fun p => if cpp_class_eqb p b then true
                                  else derives_from m k b p)
                        (bases (rc_class r))
           else false)
        (classes m)
  end.

Definition is_a (m : py_module) (b c : cpp_class) : bool :=
  if cpp_class_eqb b c then true
  else derives_from m (List.length (classes m)) b c.


(* ===================================================================== *)
(** ** Values crossing the boundary *)
(* ===================================================================== *)

(** The host-side values the [MidiEvent] binding exchanges: integers (for
    [int] fields and the event-type enumeration) and sequences of integers
    (for [std::vector<unsigned char>]). *)
Inductive py_value : Type :=
| PyInt (z : Z)
| PyIntList (l : list Z).

(** Range of the C++ type [int]. *)
Definition int_range (z : Z) : bool :=
  (- 2 ^ 31 <=? z) && (z <? 2 ^ 31).

(** Range of the C++ type [unsigned char]. *)
Definition uchar_range (z : Z) : bool :=
  (0 <=? z) && (z <? 256).

(** From-host conversion to [int]: fails outside the range of the type. *)
Definition to_int (v : py_value) : option Z :=
  match v with
  | PyInt z => if int_range z then Some z else None
  | PyIntList _ => None
  end.

(** From-host conversion to [std::vector<unsigned char>], the converter
    installed by [register_vector_converters<unsigned char>]. *)
Definition to_uchar_vector (v : py_value) : option (list Z) :=
  match v with
  | PyIntList l => if forallb uchar_range l then Some l else None
  | PyInt _ => None
  end.

(* ===================================================================== *)
(** ** MidiEvent *)
(* ===================================================================== *)

(** The data members of [MidiEvent] the binding names: [type], [port],
    [channel], [data1], [data2], and the sysex payload reached through
    [get_sysex_data] / [set_sysex_data]. *)
Record MidiEvent : Type := {
  type : Z;
  port : Z;
  channel : Z;
  data1 : Z;
  data2 : Z;
  sysex : list Z
}.

(** What the C++ types guarantee of every [MidiEvent] value. *)
Definition MidiEvent_wf (e : MidiEvent) : bool :=
  int_range (type e) && int_range (port e) && int_range (channel e)
  && int_range (data1 e) && int_range (data2 e)
  && forallb uchar_range (sysex e).

(** Reading [e.*field] through a pointer to data member. *)
Definition read_member (f : cpp_member) (e : MidiEvent) : option py_value :=
  match f with
  | member c_MidiEvent n =>
      if String.eqb n "type" then Some (PyInt (type e))
      else if String.eqb n "port" then Some (PyInt (port e))
      else if String.eqb n "channel" then Some (PyInt (channel e))
      else if String.eqb n "data1" then Some (PyInt (data1 e))
      else if String.eqb n "data2" then Some (PyInt (data2 e))
      else None
  | _ => None
  end.

(** Writing [e.*field = v] through a pointer to data member. *)
Definition write_member (f : cpp_member) (v : py_value) (e : MidiEvent)
  : option MidiEvent :=
  match f, to_int v with
  | member c_MidiEvent n, Some z =>
      if String.eqb n "type" then
        Some {| type := z; port := port e; channel := channel e;
                data1 := data1 e; data2 := data2 e; sysex := sysex e |}
      else if String.eqb n "port" then
        Some {| type := type e; port := z; channel := channel e;
                data1 := data1 e; data2 := data2 e; sysex := sysex e |}
      else if String.eqb n "channel" then
        Some {| type := type e; port := port e; channel := z;
                data1 := data1 e; data2 := data2 e; sysex := sysex e |}
      else if String.eqb n "data1" then
        Some {| type := type e; port := port e; channel := channel e;
                data1 := z; data2 := data2 e; sysex := sysex e |}
      else if String.eqb n "data2" then
        Some {| type := type e; port := port e; channel := channel e;
                data1 := data1 e; data2 := z; sysex := sysex e |}
      else None
  | _, _ => None
  end.

(** Modelled from the spec: [MidiEvent::get_sysex_data] and
    [MidiEvent::set_sysex_data] (midi_event.hh is not part of the sources
    at hand).  The spec gives the event a variable-length byte sequence
    [sysex_data]; the getter returns it and the setter replaces it. *)
Definition get_sysex_data (e : MidiEvent) : list Z := sysex e.

Definition set_sysex_data (l : list Z) (e : MidiEvent) : MidiEvent :=
  {| type := type e; port := port e; channel := channel e;
     data1 := data1 e; data2 := data2 e; sysex := l |}.

(** Calling a bound member function of [MidiEvent] from the host. *)
Definition call_member (f : cpp_member) (args : list py_value)
           (e : MidiEvent) : option (option py_value * MidiEvent) :=
  match f, args with
  | member c_MidiEvent n, [] =>
      if String.eqb n "get_sysex_data"
      then Some (Some (PyIntList (get_sysex_data e)), e)
      else None
  | member c_MidiEvent n, [v] =>
      if String.eqb n "set_sysex_data"
      then match to_uchar_vector v with
           | Some l => Some (None, set_sysex_data l e)
           | None => None
           end
      else None
  | _, _ => None
  end.

Definition find_def (c : class_) (name : string) : option class_def :=
  find (fun d => String.eqb (attribute_name d) name) (defs c).

(** [ev.name] on the host side, as far as the binding decides it: the
    C++ member read for a name bound with [def_readwrite].  [None]: the
    binding has no data attribute of this name; whatever the host then
    finds (a method, an attribute of a host subclass or of the instance's
    own dictionary) is not a read of the C++ event. *)
Definition getattr (c : class_) (name : string) (e : MidiEvent)
  : option py_value :=
  match find_def c name with
  | Some (d_def_readwrite _ f) => read_member f e
  | _ => None
  end.

(** [ev.name = v] on the host side, as far as the binding decides it:
    the event after the C++ member bound to [name] with [def_readwrite]
    is written.  [None]: no member is written, because the binding has no
    data attribute of this name (the host then keeps the value on the
    instance itself, outside the C++ event) or because the value does
    not convert to the member's type. *)
Definition setattr (c : class_) (name : string) (v : py_value)
           (e : MidiEvent) : option MidiEvent :=
  match find_def c name with
  | Some (d_def_readwrite _ f) => write_member f v e
  | _ => None
  end.

(** [ev.name(args)] on the host side, as far as the binding decides it:
    the C++ member function bound to [name] with [def] is called.
    [None]: no member function is called, because the binding has no
    method of this name or because the arguments do not convert. *)
Definition call (c : class_) (name : string) (args : list py_value)
           (e : MidiEvent) : option (option py_value * MidiEvent) :=
  match find_def c name with
  | Some (d_def _ f _) => call_member f args e
  | _ => None
  end.

(** Modelled from the spec: [operator==] and [operator!=] on [MidiEvent]
    (midi_event.hh is not part of the sources at hand; the binding only
    forwards [bp::self == bp::self] and [bp::self != bp::self] to them).
    The spec: equality is structural, on type, port, channel, data1,
    data2 and the sysex bytes. *)
Definition operator_eq (a b : MidiEvent) : bool :=
  (type a =? type b) && (port a =? port b) && (channel a =? channel b)
  && (data1 a =? data1 b) && (data2 a =? data2 b)
  && (if list_eq_dec Z.eq_dec (sysex a) (sysex b) then true else false).

Definition operator_ne (a b : MidiEvent) : bool :=
  negb (operator_eq a b).

(** [a == b] and [a != b] on the host side: defined only when the binding
    carries the operator. *)
Definition richcompare (c : class_) (o : self_operator) (a b : MidiEvent)
  : option bool :=
  if has_operator c o then
    Some (match o with
          | op_eq => operator_eq a b
          | op_ne => operator_ne a b
          end)
  else None.

(** Modelled from the spec: the default constructor [MidiEvent()]
    (midi_event.hh is not part of the sources at hand).  Restoring an event
    overwrites every field, so the initial values are immaterial. *)
Definition MidiEvent_default : MidiEvent :=
  {| type := 0; port := 0; channel := 0; data1 := 0; data2 := 0;
     sysex := [] |}.

Definition obind {A B} (o : option A) (f : A -> option B) : option B :=
  match o with Some a => f a | None => None end.

(** Modelled from the spec: snapshot and restore of an event as the flat
    field list (type, port, channel, data1, data2, sysex bytes).  The
    functions themselves belong to the host layer, which the binding
    enables with [enable_pickling]; they reach the event through the
    attributes the binding exposes. *)
Definition serialize (c : class_) (e : MidiEvent) : option (list py_value) :=
  if pickling c then
    obind (getattr c "type" e) (fun t =>
    obind (getattr c "port_" e) (fun p =>
    obind (getattr c "channel_" e) (fun ch =>
    obind (getattr c "data1" e) (fun d1 =>
    obind (getattr c "data2" e) (fun d2 =>
    obind (call c "_get_sysex_data" [] e) (fun r =>
      match fst r with
      | Some sx => Some [t; p; ch; d1; d2; sx]
      | None => None
      end))))))
  else None.

Definition restore (c : class_) (fields : list py_value) (e0 : MidiEvent)
  : option MidiEvent :=
  match fields with
  | [t; p; ch; d1; d2; sx] =>
      obind (setattr c "type" t e0) (fun e1 =>
      obind (setattr c "port_" p e1) (fun e2 =>
      obind (setattr c "channel_" ch e2) (fun e3 =>
      obind (setattr c "data1" d1 e3) (fun e4 =>
      obind (setattr c "data2" d2 e4) (fun e5 =>
      obind (call c "_set_sysex_data" [sx] e5) (fun r =>
        Some (snd r)))))))
  | _ => None
  end.

Definition deserialize (c : class_) (fields : list py_value)
  : option MidiEvent :=
  if pickling c then restore c fields MidiEvent_default else None.

(* ===================================================================== *)
(** ** The interpreter as seen from C++ *)
(* ===================================================================== *)

Inductive py_exception : Type :=
| AttributeError (attr : string)
| TypeError (msg : string)
| SystemError (msg : string)
| SystemExit (status : Z)
| Exception (msg : string).

(** How a call into host code ends: it returns, it raises, or control
    never comes back to the caller, because the host code ended the
    process ([Some status]) or never finishes ([None]). *)
Inductive py_result (A : Type) : Type :=
| py_return (a : A)
| py_raise (e : py_exception)
| py_no_return (status : option Z).
Arguments py_return {A} a.
Arguments py_raise {A} e.
Arguments py_no_return {A} status.

(** A [PyObject *]: a reference to a host object.  The wrapper only
    passes such references around; what they denote is the host's
    business. *)
Inductive PyObject : Type :=
| py_instance (id : nat)
| py_method (owner : nat) (name : string)
| py_builtin (owner : nat) (f : cpp_member).

(** What the executing thread does that an observer can see. *)
Inductive action : Type :=
| GilEnsure
| GilRelease
| PyGetAttr (o : PyObject) (name : string)
| PyCall (f : PyObject) (args : list Z)
| PyExcepthook (e : py_exception)
| PyErrDisplayed (e : py_exception)
| PatchEvaluated (scene : Z) (init : bool)
| EventOutput (e : MidiEvent)
| SwitchRefused (scene : Z).

(** The state of the thread and of the host program: how often the
    executing thread holds the global interpreter lock, the error
    indicator, the actions so far, and the state of the host program
    (its objects, their attributes, [sys.excepthook], ...). *)
Record world (host : Type) : Type := {
  gil : nat;
  err : option py_exception;
  trace : list action;
  hst : host
}.
Arguments gil {host} w.
Arguments err {host} w.
Arguments trace {host} w.
Arguments hst {host} w.

(** Host code reached from C++.  Each entry runs arbitrary host code on
    the host state: attribute lookup (descriptors, [__getattr__]), a call
    of a host object, and [sys.excepthook]. *)
Record interpreter (host : Type) : Type := {
  py_getattr : PyObject -> string -> host -> py_result PyObject * host;
  py_call : PyObject -> list Z -> host -> py_result unit * host;
  py_excepthook : py_exception -> host -> py_result unit * host
}.
Arguments py_getattr {host} i o name h.
Arguments py_call {host} i f args h.
Arguments py_excepthook {host} i e h.

Inductive cpp_exception : Type :=
| error_already_set          (* boost::python::error_already_set *)
| std_exception (what : string).

(** How a C++ computation ends.  [NoReturn]: control never comes back
    (the process ended with the given status, or host code never
    finished).  [Undefined]: the interpreter API was used in a state its
    contract excludes. *)
Inductive outcome (A : Type) : Type :=
| Returned (a : A)
| Thrown (e : cpp_exception)
| NoReturn (status : option Z)
| Undefined.
Arguments Returned {A} a.
Arguments Thrown {A} e.
Arguments NoReturn {A} status.
Arguments Undefined {A}.

Definition Cpp (host A : Type) : Type := world host -> outcome A * world host.

Definition ret {host A} (a : A) : Cpp host A := fun w => (Returned a, w).

Definition bind {host A B} (c : Cpp host A) (k : A -> Cpp host B)
  : Cpp host B := fun w =>
  match c w with
  | (Returned a, w1) => k a w1
  | (Thrown e, w1) => (Thrown e, w1)
  | (NoReturn s, w1) => (NoReturn s, w1)
  | (Undefined, w1) => (Undefined, w1)
  end.

Definition throw {host A} (e : cpp_exception) : Cpp host A :=
  fun w => (Thrown e, w).

(** [try { body } catch (E &) { handler }], where [catches] tells which
    exceptions have type [E]; the others propagate. *)
Definition try_catch {host A} (body : Cpp host A)
           (catches : cpp_exception -> bool) (handler : Cpp host A)
  : Cpp host A := fun w =>
  match body w with
  | (Thrown e, w1) => if catches e then handler w1 else (Thrown e, w1)
  | r => r
  end.

Definition is_error_already_set (e : cpp_exception) : bool :=
  match e with error_already_set => true | _ => false end.

Definition log {host} (a : action) (w : world host) : world host :=
  {| gil := gil w; err := err w; trace := trace w ++ [a]; hst := hst w |}.

Definition set_err {host} (e : option py_exception) (w : world host)
  : world host :=
  {| gil := gil w; err := e; trace := trace w; hst := hst w |}.

Definition set_host {host} (h : host) (w : world host) : world host :=
  {| gil := gil w; err := err w; trace := trace w; hst := h |}.

Definition PyGILState_Ensure {host} (w : world host) : world host :=
  {| gil := S (gil w); err := err w; trace := trace w ++ [GilEnsure];
     hst := hst w |}.

Definition PyGILState_Release {host} (w : world host) : world host :=
  {| gil := pred (gil w); err := err w; trace := trace w ++ [GilRelease];
     hst := hst w |}.

(** Modelled from the spec: [das::scoped_gil_lock] (util/python.hh is not
    part of the sources at hand).  The control lock is taken when the
    guard is constructed and given back when the guard leaves scope, by
    return or by exception; when control never comes back from the body,
    the guard is never destroyed. *)
Definition scoped_gil_lock {host A} (body : Cpp host A) : Cpp host A :=
  fun w =>
  match body (PyGILState_Ensure w) with
  | (NoReturn s, w1) => (NoReturn s, w1)
  | (r, w1) => (r, PyGILState_Release w1)
  end.

(** The message of the [SystemError] the interpreter raises when a call
    returns a result while the error indicator is set. *)
Definition result_with_exception_set : string :=
  "returned a result with an exception set".

Section Interpreter.

Context {host : Type}.
Variable I : interpreter host.

(** [PyErr_Print()].  It must be called with the lock held and the
    error indicator set.  On [SystemExit] it ends the process with the
    exception's status and reports nothing.  Otherwise it clears the
    indicator and hands the exception to [sys.excepthook]; when the hook
    itself raises, it ends the process on [SystemExit] and otherwise
    displays both exceptions on the error stream. *)
Definition PyErr_Print : Cpp host unit := fun w =>
  match gil w, err w with
  | S _, Some (SystemExit status) => (NoReturn (Some status), w)
  | S _, Some e =>
      let w1 := log (PyExcepthook e) (set_err None w) in
      match py_excepthook I e (hst w1) with
      | (py_return _, h) => (Returned tt, set_host h w1)
      | (py_raise (SystemExit status), h) =>
          (NoReturn (Some status), set_host h w1)
      | (py_raise e2, h) =>
          (Returned tt,
           log (PyErrDisplayed e)
               (log (PyErrDisplayed e2) (set_host h w1)))
      | (py_no_return s, h) => (NoReturn s, set_host h w1)
      end
  | _, _ => (Undefined, w)
  end.

(** [boost::python::call_method<void>(self, name, args...)]: looks the
    attribute up on [self] and calls what it finds.  A host exception,
    from the lookup or from the call, leaves the error indicator set and
    surfaces as [error_already_set]; so does a call that returns while
    the indicator was already set on entry, which the interpreter
    (CPython 3) turns into a [SystemError]. *)
Definition call_method_void (self : PyObject) (name : string)
           (args : list Z) : Cpp host unit := fun w =>
  match gil w with
  | O => (Undefined, w)
  | S _ =>
      let w0 := log (PyGetAttr self name) w in
      match py_getattr I self name (hst w0) with
      | (py_no_return s, h1) => (NoReturn s, set_host h1 w0)
      | (py_raise e, h1) =>
          (Thrown error_already_set, set_err (Some e) (set_host h1 w0))
      | (py_return f, h1) =>
          let w1 := log (PyCall f args) (set_host h1 w0) in
          match py_call I f args (hst w1) with
          | (py_no_return s, h2) => (NoReturn s, set_host h2 w1)
          | (py_raise e, h2) =>
              (Thrown error_already_set,
               set_err (Some e) (set_host h2 w1))
          | (py_return _, h2) =>
              match err w1 with
              | None => (Returned tt, set_host h2 w1)
              | Some _ =>
                  (Thrown error_already_set,
                   set_err (Some (SystemError result_with_exception_set))
                           (set_host h2 w1))
              end
          end
      end
  end.

End Interpreter.

(* ===================================================================== *)
(** ** EngineWrap *)
(* ===================================================================== *)

(** Modelled from the spec: the [Engine] base class (engine.hh is not
    part of the sources at hand); only what its constructor receives is
    kept. *)
Record Engine : Type := {
  backend_name : string;
  client_name : string;
  in_ports : list string;
  out_ports : list string;
  verbose : bool
}.

Record EngineWrap : Type := {
  base : Engine;
  _self : PyObject
}.

(** [EngineWrap::EngineWrap(self, backend_name, client_name, in_ports,
    out_ports, verbose)]. *)
Definition EngineWrap_new (self : PyObject)
           (backend_name client_name : string)
           (in_ports out_ports : list string) (verbose : bool)
  : EngineWrap :=
  {| base := {| backend_name := backend_name;
                client_name := client_name;
                in_ports := in_ports; out_ports := out_ports;
                verbose := verbose |};
     _self := self |}.

(** [EngineWrap::scene_switch_callback(scene, subscene)]. *)
Definition scene_switch_callback {host} (I : interpreter host)
           (this : EngineWrap) (scene subscene : Z) : Cpp host unit :=
  scoped_gil_lock
    (try_catch
       (call_method_void I (_self this) "scene_switch_callback"
                         [scene; subscene])
       is_error_already_set
       (PyErr_Print I)).

(** The host expression [Engine(backend, client, ins, outs, verbose)]:
    with [EngineWrap] as held type, the instance under construction is
    handed to the wrapper's constructor in front of the host arguments. *)
Definition construct_Engine (self : PyObject) (backend client : string)
           (ins outs : list string) (verbose : bool) : EngineWrap :=
  EngineWrap_new self backend client ins outs verbose.

(* ===================================================================== *)
(** ** A small host program *)
(* ===================================================================== *)

(** What a piece of host code does when it runs: enough to drive the
    wrapper on concrete inputs. *)
Inductive behaviour : Type :=
| returns
| raises (e : py_exception)
| exits (status : Z)                            (* os._exit(status) *)
| forgets (name : string) (next : behaviour).   (* del self.name *)

(** The host program: for each instance of [Engine] (or of a host
    subclass) the callable attributes the host layer defines on it, and
    the replacement of [sys.excepthook], if any. *)
Record simple_host : Type := {
  instances : list (nat * list (string * behaviour));
  hook : option behaviour
}.

Definition attributes_of (h : simple_host) (id : nat)
  : list (string * behaviour) :=
  match find (fun p => Nat.eqb (fst p) id) (instances h) with
  | Some p => snd p
  | None => []
  end.

Definition lookup_attribute (h : simple_host) (id : nat) (name : string)
  : option behaviour :=
  option_map snd
    (find (fun kv => String.eqb (fst kv) name) (attributes_of h id)).

Definition delete_attribute (id : nat) (name : string) (h : simple_host)
  : simple_host :=
  {| instances :=
       map (fun p => if Nat.eqb (fst p) id
                     then (fst p,
                           filter (fun kv => negb (String.eqb (fst kv) name))
                                  (snd p))
                     else p)
           (instances h);
     hook := hook h |}.

Fixpoint run_behaviour (owner : nat) (b : behaviour) (h : simple_host)
  : py_result unit * simple_host :=
  match b with
  | returns => (py_return tt, h)
  | raises e => (py_raise e, h)
  | exits status => (py_no_return (Some status), h)
  | forgets name next =>
      run_behaviour owner next (delete_attribute owner name h)
  end.

Section SimpleHost.

(** The initialised module, and the behaviour of the C++ members bound
    into it (their bodies are outside this file). *)
Variable m : py_module.
Variable invoke_builtin : cpp_member -> list Z -> py_result unit.

(** Attribute lookup on an [Engine] instance: what the host layer
    defines comes first, then what the extension class defines. *)
Definition PyObject_GetAttr (o : PyObject) (name : string)
           (h : simple_host) : py_result PyObject * simple_host :=
  match o with
  | py_instance id =>
      match lookup_attribute h id name with
      | Some _ => (py_return (py_method id name), h)
      | None =>
          match find_class m "Engine" with
          | Some c =>
              match bound_member c name with
              | Some f => (py_return (py_builtin id f), h)
              | None => (py_raise (AttributeError name), h)
              end
          | None => (py_raise (AttributeError name), h)
          end
      end
  | _ => (py_raise (AttributeError name), h)
  end.

Definition PyObject_Call (f : PyObject) (args : list Z) (h : simple_host)
  : py_result unit * simple_host :=
  match f with
  | py_method owner name =>
      match lookup_attribute h owner name with
      | Some b => run_behaviour owner b h
      | None => (py_raise (AttributeError name), h)
      end
  | py_builtin _ f => (invoke_builtin f args, h)
  | py_instance _ => (py_raise (TypeError "object is not callable"), h)
  end.

(** [sys.excepthook]: the built-in one displays the exception and
    returns; a replacement runs host code. *)
Definition sys_excepthook (e : py_exception) (h : simple_host)
  : py_result unit * simple_host :=
  match hook h with
  | None => (py_return tt, h)
  | Some b => run_behaviour O b h
  end.

Definition simple_interpreter : interpreter simple_host :=
  {| py_getattr := PyObject_GetAttr;
     py_call := PyObject_Call;
     py_excepthook := sys_excepthook |}.

End SimpleHost.

(** An instance of the extension class itself: the host defines nothing
    on it. *)
Definition plain_instance : PyObject := py_instance 0.

Definition plain_host : simple_host :=
  {| instances := []; hook := None |}.

(** An instance of a host subclass that defines the notification. *)
Definition subclass_instance : PyObject := py_instance 1.

Definition subclass_host (handler : behaviour) : simple_host :=
  {| instances := [(1%nat, [("scene_switch_callback", handler)])];
     hook := None |}.

(** A thread that does not hold the lock and has no error pending. *)
Definition idle {host} (h : host) : world host :=
  {| gil := O; err := None; trace := []; hst := h |}.

(* ===================================================================== *)
(** ** Dispatch of one event *)
(* ===================================================================== *)












(** The steps that run host code or report to the host. *)
Definition host_action (a : action) : bool :=
  match a with
  | PyGetAttr _ _ | PyCall _ _ | PyExcepthook _ | PyErrDisplayed _ => true
  | _ => false
  end.

(** A host call comes back to the caller: it returns, or it raises
    something other than [SystemExit]. *)
Definition comes_back {A} (r : py_result A) : bool :=
  match r with
  | py_return _ => true
  | py_raise (SystemExit _) => false
  | py_raise _ => true
  | py_no_return _ => false
  end.

Definition is_SystemExit (e : py_exception) : bool :=
  match e with SystemExit _ => true | _ => false end.


(** The parameter types of a constructor that accept an arbitrary host
    object, a callable among them. *)
Definition takes_handler (c : class_) : bool :=
  match ctor c with
  | init sig => existsb (cpp_type_eqb t_bp_object) sig
  | no_init => false
  end.

(** The nine engine operations the interface description lists. *)
Definition engine_operations : list string :=
  ["connect_ports"; "add_scene"; "set_processing"; "start";
   "switch_scene"; "current_scene"; "current_subscene"; "output_event";
   "time"].

(** Every class other than [MidiEvent] is the engine, the patch, a module
    or a unit. *)
Definition graph_or_engine_class (m : py_module) (c : class_) : bool :=
  cpp_class_eqb (wrapped c) c_Engine
  || cpp_class_eqb (wrapped c) c_Patch
  || is_a m c_Patch_Module (wrapped c)
  || is_a m c_Unit (wrapped c)
  || is_a m c_UnitEx (wrapped c).

Definition value_semantics_check (m : py_module) (c : class_) : bool :=
  if cpp_class_eqb (wrapped c) c_MidiEvent
  then negb (noncopyable c) && pickling c
  else noncopyable c && negb (pickling c) && graph_or_engine_class m c.

(* ===================================================================== *)
(** ** Checks over the whole table *)
(* ===================================================================== *)

(** No element occurs twice. *)
Fixpoint distinct {A : Type} (eqb : A -> A -> bool) (l : list A) : bool :=
  match l with
  | [] => true
  | x :: t => negb (existsb (eqb x) t) && distinct eqb t
  end.

(** Every [bases<B>] names a class wrapped by an earlier registration;
    [seen] holds the classes wrapped so far. *)
Fixpoint bases_known (seen : list cpp_class) (l : list registered_class)
  : bool :=
  match l with
  | [] => true
  | r :: t =>
      forallb (fun b => existsb (cpp_class_eqb b) seen)
              (bases (rc_class r))
      && bases_known (seen ++ [wrapped (rc_class r)]) t
  end.

Definition is_vector_converter (t : cpp_type) (c : converter) : bool :=
  match c with
  | vector_converters u => cpp_type_eqb t u
  | _ => false
  end.

(** The element type of a parameter passed as [std::vector<T>] or
    [std::vector<T> const &]. *)
Definition vector_element (ty : cpp_type) : option cpp_type :=
  match ty with
  | t_std_vector t => Some t
  | t_const_ref (t_std_vector t) => Some t
  | _ => None
  end.

Definition parameters (c : class_) : list cpp_type :=
  match ctor c with
  | init sig => sig
  | no_init => []
  end.

(** Every vector parameter of the constructor has its converter. *)
Definition vector_parameters_convertible (m : py_module) (c : class_)
  : bool :=
  forallb (fun ty => match vector_element ty with
                     | Some t => existsb (is_vector_converter t)
                                         (converters m)
                     | None => true
                     end)
          (parameters c).

(** Every [shared_ptr<K>] parameter of the constructor names a class
    registered without constructor. *)
Definition shared_parameters_abstract (m : py_module) (c : class_) : bool :=
  forallb (fun ty => match ty with
                     | t_shared_ptr k =>
                         existsb (fun c' => cpp_class_eqb (wrapped c') k
                                            && negb (constructible c'))
                                 (all_classes m)
                     | _ => true
                     end)
          (parameters c).

(** The families a registered class can belong to. *)
Definition families (m : py_module) (c : class_) : list bool :=
  [cpp_class_eqb (wrapped c) c_Engine;
   cpp_class_eqb (wrapped c) c_Patch;
   cpp_class_eqb (wrapped c) c_MidiEvent;
   is_a m c_Patch_Module (wrapped c);
   is_a m c_Unit (wrapped c);
   is_a m c_UnitEx (wrapped c)].



(* ===================================================================== *)
(** ** Notifications in sequence *)
(* ===================================================================== *)

(** The wrapper invoked once per (scene, subscene) pair, one invocation
    after the other on the same thread. *)
Fixpoint notifications {host} (I : interpreter host) (this : EngineWrap)
         (l : list (Z * Z)) : Cpp host unit :=
  match l with
  | [] => ret tt
  | (scene, subscene) :: t =>
      bind (scene_switch_callback I this scene subscene)
           (fun _ => notifications I this t)
  end.

(** The arguments of the host calls in a trace, in order. *)
Definition calls (tr : list action) : list (list Z) :=
  flat_map (fun a => match a with
                     | PyCall _ args => [args]
                     | _ => []
                     end) tr.

Definition lock_actions (tr : list action) : list action :=
  filter (fun a => match a with
                   | GilEnsure | GilRelease => true
                   | _ => false
                   end) tr.

(* ===================================================================== *)
(** * Properties of the module table *)
(* ===================================================================== *)

Ltac each_build cfg := destruct cfg as [[|] [|]].

Lemma cpp_class_eqb_eq (a b : cpp_class) :
  cpp_class_eqb a b = true <-> a = b.
Proof.
  unfold cpp_class_eqb. destruct (cpp_class_eq_dec a b); split;
    congruence.
Qed.

Lemma engine_registered (cfg : config) :
  exists E, find_class (_mididings cfg) "Engine" = Some E
            /\ wrapped E = c_Engine
            /\ held E = Some c_EngineWrap
            /\ takes_handler E = false
            /\ existsb (String.eqb "scene_switch_callback") (attributes E)
               = false.
Proof.
  each_build cfg; vm_compute; eexists; (split; [reflexivity|]);
    repeat split.
Qed.

(** C1 (as the code has it): the module provides [available_backends] and
    an [Engine] type constructed from (backend name, client name, input
    port names, output port names, verbose flag); the operations of
    [Engine] are the nine documented ones, followed by [process] when the
    module is built with [ENABLE_TEST]. *)
Theorem engine_interface_by_build (cfg : config) :
  find_function (_mididings cfg) "available_backends"
  = Some (member c_Backend "available", return_by_value)
  /\ exists E,
       find_class (_mididings cfg) "Engine" = Some E
       /\ ctor E = init [t_const_ref t_std_string; t_const_ref t_std_string;
                         t_const_ref (t_std_vector t_std_string);
                         t_const_ref (t_std_vector t_std_string); t_bool]
       /\ operations E
          = (engine_operations
             ++ (if ENABLE_TEST cfg then ["process"] else []))%list
       /\ (forall self b c i o v,
              base (construct_Engine self b c i o v)
              = {| backend_name := b; client_name := c; in_ports := i;
                   out_ports := o; verbose := v |}).
Proof.
  split.
  - each_build cfg; vm_compute; reflexivity.
  - each_build cfg; vm_compute; eexists; (split; [reflexivity|]);
      repeat split.
Qed.

(** C1 fails as stated: in a build with [ENABLE_TEST] the [Engine] type has
    a tenth operation, [process], which is not among the nine. *)
Lemma engine_operations_test_build :
  exists E,
    find_class (_mididings test_build) "Engine" = Some E
    /\ In "process" (operations E)
    /\ ~ In "process" engine_operations.
Proof.
  vm_compute. eexists; split; [reflexivity|]; split.
  - tauto.
  - intros H.
    repeat (destruct H as [H|H]; [discriminate H|]). exact H.
Qed.

(** C4 (as the code has it): the host-visible operation [process] exists
    exactly in builds with [ENABLE_TEST], where it is bound to
    [Engine::process_test]. *)
Theorem process_exposed_iff_test_build (cfg : config) :
  exists E,
    find_class (_mididings cfg) "Engine" = Some E
    /\ existsb (String.eqb "process") (operations E) = ENABLE_TEST cfg
    /\ bound_member E "process"
       = if ENABLE_TEST cfg then Some (member c_Engine "process_test")
         else None.
Proof.
  each_build cfg; vm_compute; eexists; (split; [reflexivity|]);
    split; reflexivity.
Qed.

(** C4 fails as stated: in a build without [ENABLE_TEST] the [Engine] type
    has no operation [process]. *)
Lemma process_absent_release_build :
  exists E,
    find_class (_mididings release_build) "Engine" = Some E
    /\ ~ In "process" (operations E)
    /\ bound_member E "process" = None.
Proof.
  vm_compute. eexists; split; [reflexivity|]; split.
  - intros H.
    repeat (destruct H as [H|H]; [discriminate H|]). exact H.
  - reflexivity.
Qed.

(** C7: the constructible classes of the [Module] family are exactly
    [Chain(ModuleVector)], [Fork(ModuleVector, bool)],
    [Single(shared_ptr<Unit>)] and [Extended(shared_ptr<UnitEx>)], all
    registered inside [Patch]; the classes without a constructor are
    exactly [Module], [Unit], [UnitEx] and [Filter]. *)
Theorem module_variants_closed (cfg : config) :
  let m := _mididings cfg in
  map (fun r => (rc_scope r, py_name (rc_class r), ctor (rc_class r)))
      (filter (fun r => is_a m c_Patch_Module (wrapped (rc_class r))
                        && constructible (rc_class r))
              (classes m))
  = [(["Patch"], "Chain", init [t_Patch_ModuleVector]);
     (["Patch"], "Fork", init [t_Patch_ModuleVector; t_bool]);
     (["Patch"], "Single", init [t_shared_ptr c_Unit]);
     (["Patch"], "Extended", init [t_shared_ptr c_UnitEx])]
  /\ map py_name (filter (fun c => negb (constructible c)) (all_classes m))
     = ["Module"; "Unit"; "UnitEx"; "Filter"]
  /\ map py_name
         (filter (fun c => is_a m c_Patch_Module (wrapped c))
                 (all_classes m))
     = ["Module"; "Chain"; "Fork"; "Single"; "Extended"].
Proof.
  each_build cfg; vm_compute; repeat split.
Qed.

(** C8: [SceneSwitch] is constructed from two integers, [SubSceneSwitch]
    from two integers and a boolean, [Call] from a host object and two
    booleans; all three are [UnitEx] classes. *)
Theorem control_unit_constructors (cfg : config) :
  let m := _mididings cfg in
  option_map (fun c => (bases c, ctor c)) (find_class m "SceneSwitch")
  = Some ([c_UnitEx], init [t_int; t_int])
  /\ option_map (fun c => (bases c, ctor c)) (find_class m "SubSceneSwitch")
     = Some ([c_UnitEx], init [t_int; t_int; t_bool])
  /\ option_map (fun c => (bases c, ctor c)) (find_class m "Call")
     = Some ([c_UnitEx], init [t_bp_object; t_bool; t_bool]).
Proof.
  each_build cfg; vm_compute; repeat split.
Qed.

Lemma value_semantics_checked (cfg : config) :
  forallb (value_semantics_check (_mididings cfg))
          (all_classes (_mididings cfg)) = true.
Proof. each_build cfg; vm_compute; reflexivity. Qed.

(** C10: a class registered in the module is copyable exactly when it is
    [MidiEvent], and pickleable exactly when it is [MidiEvent]; every
    other class is the engine, the patch, a module or a unit. *)
Theorem only_MidiEvent_copyable_and_pickleable
        (cfg : config) (c : class_)
        (Hin : In c (all_classes (_mididings cfg))) :
  (wrapped c = c_MidiEvent -> noncopyable c = false /\ pickling c = true)
  /\ (wrapped c <> c_MidiEvent ->
      noncopyable c = true /\ pickling c = false
      /\ graph_or_engine_class (_mididings cfg) c = true).
Proof.
  pose proof (value_semantics_checked cfg) as H.
  rewrite forallb_forall in H. specialize (H c Hin).
  unfold value_semantics_check in H.
  destruct (cpp_class_eqb (wrapped c) c_MidiEvent) eqn:E.
  - apply cpp_class_eqb_eq in E.
    apply andb_prop in H as [H1 H2]. apply negb_true_iff in H1.
    split; [auto | intros N; contradiction].
  - assert (N : wrapped c <> c_MidiEvent).
    { intros Heq. apply cpp_class_eqb_eq in Heq. congruence. }
    apply andb_prop in H as [H12 H3]. apply andb_prop in H12 as [H1 H2].
    apply negb_true_iff in H2.
    split; [intros Heq; contradiction | auto].
Qed.

Lemma only_MidiEvent_copyable_and_pickleable_witness :
  let c := mk_class c_MidiEvent None [] false "MidiEvent" (init [])
           |> def_readwrite "type" (member c_MidiEvent "type")
           |> def_readwrite "port_" (member c_MidiEvent "port")
           |> def_readwrite "channel_" (member c_MidiEvent "channel")
           |> def_readwrite "data1" (member c_MidiEvent "data1")
           |> def_readwrite "data2" (member c_MidiEvent "data2")
           |> def_with "_get_sysex_data" (member c_MidiEvent "get_sysex_data")
                       return_by_value
           |> def "_set_sysex_data" (member c_MidiEvent "set_sysex_data")
           |> def_operator op_eq
           |> def_operator op_ne
           |> enable_pickling in
  In c (all_classes (_mididings release_build))
  /\ noncopyable c = false /\ pickling c = true.
Proof.
  intros c.
  assert (Hin : In c (all_classes (_mididings release_build))).
  { vm_compute. do 7 right. left. reflexivity. }
  split; [exact Hin|].
  apply (only_MidiEvent_copyable_and_pickleable release_build c Hin).
  reflexivity.
Defined.

(* ===================================================================== *)
(** * Properties of MidiEvent *)
(* ===================================================================== *)

Lemma MidiEvent_registered (cfg : config) :
  exists c, find_class (_mididings cfg) "MidiEvent" = Some c
            /\ c = mk_class c_MidiEvent None [] false "MidiEvent" (init [])
                   |> def_readwrite "type" (member c_MidiEvent "type")
                   |> def_readwrite "port_" (member c_MidiEvent "port")
                   |> def_readwrite "channel_" (member c_MidiEvent "channel")
                   |> def_readwrite "data1" (member c_MidiEvent "data1")
                   |> def_readwrite "data2" (member c_MidiEvent "data2")
                   |> def_with "_get_sysex_data"
                        (member c_MidiEvent "get_sysex_data") return_by_value
                   |> def "_set_sysex_data"
                        (member c_MidiEvent "set_sysex_data")
                   |> def_operator op_eq
                   |> def_operator op_ne
                   |> enable_pickling.
Proof.
  each_build cfg; vm_compute; eexists; split; reflexivity.
Qed.

Lemma operator_eq_fields (a b : MidiEvent) :
  operator_eq a b = true
  <-> type a = type b /\ port a = port b /\ channel a = channel b
      /\ data1 a = data1 b /\ data2 a = data2 b /\ sysex a = sysex b.
Proof.
  unfold operator_eq.
  repeat rewrite andb_true_iff. repeat rewrite Z.eqb_eq.
  destruct (list_eq_dec Z.eq_dec (sysex a) (sysex b)) as [E|N].
  - tauto.
  - split; [intros H | intros H; exfalso; tauto].
    destruct H as [_ H]. discriminate H.
Qed.

Lemma operator_eq_refl (e : MidiEvent) : operator_eq e e = true.
Proof. apply operator_eq_fields. repeat split. Qed.

Section Roundtrip.

Variable c : class_.
Hypothesis Hc :
  c = mk_class c_MidiEvent None [] false "MidiEvent" (init [])
      |> def_readwrite "type" (member c_MidiEvent "type")
      |> def_readwrite "port_" (member c_MidiEvent "port")
      |> def_readwrite "channel_" (member c_MidiEvent "channel")
      |> def_readwrite "data1" (member c_MidiEvent "data1")
      |> def_readwrite "data2" (member c_MidiEvent "data2")
      |> def_with "_get_sysex_data"
           (member c_MidiEvent "get_sysex_data") return_by_value
      |> def "_set_sysex_data" (member c_MidiEvent "set_sysex_data")
      |> def_operator op_eq
      |> def_operator op_ne
      |> enable_pickling.

Lemma serialize_fields (e : MidiEvent) :
  serialize c e
  = Some [PyInt (type e); PyInt (port e); PyInt (channel e);
          PyInt (data1 e); PyInt (data2 e); PyIntList (sysex e)].
Proof. subst c. reflexivity. Qed.

Lemma setattr_int (e0 : MidiEvent) (z : Z) :
  setattr c "type" (PyInt z) e0
  = (if int_range z
     then Some {| type := z; port := port e0; channel := channel e0;
                  data1 := data1 e0; data2 := data2 e0;
                  sysex := sysex e0 |}
     else None)
  /\ setattr c "port_" (PyInt z) e0
     = (if int_range z
        then Some {| type := type e0; port := z; channel := channel e0;
                     data1 := data1 e0; data2 := data2 e0;
                     sysex := sysex e0 |}
        else None)
  /\ setattr c "channel_" (PyInt z) e0
     = (if int_range z
        then Some {| type := type e0; port := port e0; channel := z;
                     data1 := data1 e0; data2 := data2 e0;
                     sysex := sysex e0 |}
        else None)
  /\ setattr c "data1" (PyInt z) e0
     = (if int_range z
        then Some {| type := type e0; port := port e0;
                     channel := channel e0;
                     data1 := z; data2 := data2 e0; sysex := sysex e0 |}
        else None)
  /\ setattr c "data2" (PyInt z) e0
     = (if int_range z
        then Some {| type := type e0; port := port e0;
                     channel := channel e0;
                     data1 := data1 e0; data2 := z; sysex := sysex e0 |}
        else None).
Proof.
  subst c. unfold setattr, write_member, to_int.
  repeat split; destruct (int_range z); reflexivity.
Qed.

Lemma set_sysex_call (e0 : MidiEvent) (sx : list Z) :
  call c "_set_sysex_data" [PyIntList sx] e0
  = if forallb uchar_range sx then Some (None, set_sysex_data sx e0)
    else None.
Proof.
  subst c. unfold call, call_member, to_uchar_vector.
  destruct (forallb uchar_range sx); reflexivity.
Qed.

Lemma restore_fields (t p ch d1 d2 : Z) (sx : list Z) (e0 : MidiEvent) :
  int_range t = true -> int_range p = true -> int_range ch = true ->
  int_range d1 = true -> int_range d2 = true ->
  forallb uchar_range sx = true ->
  restore c [PyInt t; PyInt p; PyInt ch; PyInt d1; PyInt d2; PyIntList sx]
          e0
  = Some {| type := t; port := p; channel := ch; data1 := d1;
            data2 := d2; sysex := sx |}.
Proof.
  intros Ht Hp Hch Hd1 Hd2 Hsx. unfold restore.
  destruct (setattr_int e0 t) as [-> _]. rewrite Ht. cbn [obind].
  match goal with |- context [setattr c "port_" _ ?e] =>
    destruct (setattr_int e p) as (_ & -> & _) end.
  rewrite Hp. cbn [obind].
  match goal with |- context [setattr c "channel_" _ ?e] =>
    destruct (setattr_int e ch) as (_ & _ & -> & _) end.
  rewrite Hch. cbn [obind].
  match goal with |- context [setattr c "data1" _ ?e] =>
    destruct (setattr_int e d1) as (_ & _ & _ & -> & _) end.
  rewrite Hd1. cbn [obind].
  match goal with |- context [setattr c "data2" _ ?e] =>
    destruct (setattr_int e d2) as (_ & _ & _ & _ & ->) end.
  rewrite Hd2. cbn [obind].
  rewrite set_sysex_call, Hsx. reflexivity.
Qed.

Lemma deserialize_serialize (e : MidiEvent) :
  MidiEvent_wf e = true ->
  obind (serialize c e) (deserialize c) = Some e.
Proof.
  intros Hwf. unfold MidiEvent_wf in Hwf.
  do 5 (apply andb_prop in Hwf; destruct Hwf as [Hwf ?]).
  rewrite serialize_fields. cbn [obind]. unfold deserialize.
  replace (pickling c) with true by (subst c; reflexivity).
  rewrite restore_fields by assumption. destruct e; reflexivity.
Qed.

End Roundtrip.

(** C5: for every event (its integer fields within [int], its payload
    bytes within [unsigned char]), whatever the length of the payload,
    the flat field list of the event restores to an event that is the
    same and that [==] finds equal. *)
Theorem serialize_roundtrip (cfg : config) (e : MidiEvent)
        (Hwf : MidiEvent_wf e = true) :
  exists c fields e',
    find_class (_mididings cfg) "MidiEvent" = Some c
    /\ serialize c e = Some fields
    /\ deserialize c fields = Some e'
    /\ e' = e
    /\ richcompare c op_eq e' e = Some true.
Proof.
  destruct (MidiEvent_registered cfg) as (c & Hfind & Hc).
  pose proof (deserialize_serialize c Hc e Hwf) as H.
  rewrite (serialize_fields c Hc) in H. cbn [obind] in H.
  exists c. eexists. exists e.
  split; [exact Hfind|]. split; [apply (serialize_fields c Hc)|].
  split; [exact H|]. split; [reflexivity|].
  unfold richcompare.
  replace (has_operator c op_eq) with true by (subst c; reflexivity).
  rewrite operator_eq_refl. reflexivity.
Qed.

Lemma serialize_roundtrip_witness :
  let empty_payload :=
    {| type := 1; port := 0; channel := 15; data1 := 60; data2 := 127;
       sysex := [] |} in
  MidiEvent_wf empty_payload = true
  /\ exists c fields e',
       find_class (_mididings release_build) "MidiEvent" = Some c
       /\ serialize c empty_payload = Some fields
       /\ deserialize c fields = Some e'
       /\ e' = empty_payload
       /\ richcompare c op_eq e' empty_payload = Some true.
Proof.
  intros e. split; [reflexivity|].
  apply (serialize_roundtrip release_build e). reflexivity.
Defined.

(** C6: the host operators [==] and [!=] on events are both present;
    [==] holds exactly of two events that agree on type, port, channel,
    data1, data2 and the sysex bytes, and [!=] is its negation. *)
Theorem event_equality_structural (cfg : config) (a b : MidiEvent) :
  exists c,
    find_class (_mididings cfg) "MidiEvent" = Some c
    /\ richcompare c op_eq a b = Some (operator_eq a b)
    /\ richcompare c op_ne a b = Some (negb (operator_eq a b))
    /\ (operator_eq a b = true
        <-> type a = type b /\ port a = port b /\ channel a = channel b
            /\ data1 a = data1 b /\ data2 a = data2 b
            /\ sysex a = sysex b).
Proof.
  destruct (MidiEvent_registered cfg) as (c & Hfind & Hc).
  exists c. split; [exact Hfind|].
  split; [subst c; reflexivity|]. split; [subst c; reflexivity|].
  apply operator_eq_fields.
Qed.

(** Concrete runs: an event with a four-byte payload survives the round
    trip; a field list whose data1 does not fit [int] is refused. *)
Example roundtrip_identity_request :
  let e := {| type := 128; port := 1; channel := 0; data1 := 0; data2 := 0;
              sysex := [240; 126; 127; 247] |} in
  option_map
    (fun c => (serialize c e, obind (serialize c e) (deserialize c)))
    (find_class (_mididings release_build) "MidiEvent")
  = Some (Some [PyInt 128; PyInt 1; PyInt 0; PyInt 0; PyInt 0;
                PyIntList [240; 126; 127; 247]],
          Some e).
Proof. vm_compute. reflexivity. Qed.

Example restore_refuses_wide_field :
  option_map
    (fun c => deserialize c [PyInt 1; PyInt 0; PyInt 0; PyInt (2 ^ 31);
                             PyInt 0; PyIntList []])
    (find_class (_mididings release_build) "MidiEvent")
  = Some None.
Proof. vm_compute. reflexivity. Qed.

(* ===================================================================== *)
(** * Properties of the notification wrapper *)
(* ===================================================================== *)

Ltac flatten_trace :=
  repeat rewrite <- app_assoc; cbn [app].

(** Unfolds the wrapper down to the host code it reaches. *)
Ltac run_wrapper :=
  unfold scene_switch_callback, scoped_gil_lock, try_catch,
    call_method_void, PyErr_Print;
  cbn [PyGILState_Ensure PyGILState_Release gil err hst trace log set_err
       set_host is_error_already_set fst snd].

(** Splits every result of host code into its cases. *)
Ltac split_host :=
  repeat (cbn;
          match goal with
          | H : py_getattr ?I ?a ?b ?c = _ |- context [py_getattr ?I ?a ?b ?c] =>
              rewrite H
          | H : py_call ?I ?a ?b ?c = _ |- context [py_call ?I ?a ?b ?c] =>
              rewrite H
          | H : py_excepthook ?I ?a ?c = _
            |- context [py_excepthook ?I ?a ?c] =>
              rewrite H
          | e : py_exception |- _ => destruct e
          | u : unit |- _ => destruct u
          | |- context [py_getattr ?I ?a ?b ?c] =>
              destruct (py_getattr I a b c) as [[?|?|?] ?] eqn:?
          | |- context [py_call ?I ?a ?b ?c] =>
              destruct (py_call I a b c) as [[?|?|?] ?] eqn:?
          | |- context [py_excepthook ?I ?a ?c] =>
              destruct (py_excepthook I a c) as [[?|?|?] ?] eqn:?
          | o : option py_exception |- _ => destruct o
          | w : world _ |- _ => destruct w
          end).

Ltac split_last l k :=
  match l with
  | [?x] => k (@nil action) x
  | ?y :: ?t => split_last t ltac:(fun front last => k (y :: front) last)
  end.

Section Notification.

Context {host : Type}.
Variable I : interpreter host.
Variable this : EngineWrap.

(** The wrapper never lets a C++ exception out and never uses the
    interpreter out of contract: it takes the lock, looks the
    notification up, runs host code, and either gives the lock back and
    returns with the error indicator clear, or control never comes back. *)
Lemma wrapper_shape (scene subscene : Z) (w : world host) :
  let r := scene_switch_callback I this scene subscene w in
  exists mid tail,
    trace (snd r)
    = (trace w
       ++ GilEnsure :: PyGetAttr (_self this) "scene_switch_callback"
          :: mid ++ tail)%list
    /\ forallb host_action mid = true
    /\ ((tail = [GilRelease] /\ fst r = Returned tt
         /\ gil (snd r) = gil w /\ err (snd r) = None)
        \/ (tail = [] /\ exists s, fst r = NoReturn s)).
Proof.
  cbv zeta. run_wrapper. split_host; cbn; flatten_trace;
  match goal with
  | |- exists mid tail,
        (_ ++ GilEnsure :: PyGetAttr _ _ :: ?rest)%list = _ /\ _ =>
      first
        [ split_last rest ltac:(fun front last =>
            exists front, [last];
            split; [reflexivity|]; split; [reflexivity|];
            left; repeat split; reflexivity)
        | exists rest, (@nil action);
          split; [rewrite app_nil_r; reflexivity|];
          split; [reflexivity|];
          right; split; [reflexivity|eexists; reflexivity] ]
  end.
Qed.








(** C9 (as the code has it): when the host's notification raises
    anything but [SystemExit], the wrapper catches the C++ exception and
    hands the host exception to [PyErr_Print], which clears the error
    indicator and reports through [sys.excepthook]; provided the hook
    comes back, the wrapper gives the lock back and returns normally, so
    nothing is thrown to the caller. *)
Theorem callback_exception_contained
        (scene subscene : Z) (w : world host) (f : PyObject) (e : py_exception) (h1 h2 : host)
        (Hfound : py_getattr I (_self this) "scene_switch_callback" (hst w)
                  = (py_return f, h1))
        (Hraise : py_call I f [scene; subscene] h1 = (py_raise e, h2))
        (Hkind : is_SystemExit e = false)
        (Hhook : comes_back (fst (py_excepthook I e h2)) = true) :
  let r := scene_switch_callback I this scene subscene w in
  fst r = Returned tt
  /\ gil (snd r) = gil w
  /\ err (snd r) = None
  /\ hst (snd r) = snd (py_excepthook I e h2)
  /\ trace (snd r)
     = (trace w
        ++ [GilEnsure; PyGetAttr (_self this) "scene_switch_callback";
            PyCall f [scene; subscene]; PyExcepthook e]
        ++ match fst (py_excepthook I e h2) with
           | py_raise e2 => [PyErrDisplayed e2; PyErrDisplayed e]
           | _ => []
           end
        ++ [GilRelease])%list.
Proof.
  cbv zeta. run_wrapper. destruct w as [g er tr h]. cbn in *.
  rewrite Hfound. cbn. rewrite Hraise. cbn.
  destruct e; try discriminate Hkind; cbn;
    match goal with
    | |- context [py_excepthook I ?x h2] =>
        destruct (py_excepthook I x h2) as [[[]|e2|s] h3]
    end;
    cbn in *; try discriminate Hhook;
    try (destruct e2; try discriminate Hhook);
    cbn; flatten_trace; repeat split.
Qed.



End Notification.

Lemma callback_exception_contained_witness :
  let I := simple_interpreter (_mididings release_build)
                              (fun _ _ => py_return tt) in
  let this := construct_Engine subclass_instance
                               "alsa" "mididings" ["in"] ["out"] false in
  let h := subclass_host (raises (Exception "boom")) in
  let r := scene_switch_callback I this 2 1 (idle h) in
  fst r = Returned tt
  /\ gil (snd r) = O
  /\ err (snd r) = None
  /\ hst (snd r) = h
  /\ trace (snd r)
     = [GilEnsure; PyGetAttr subclass_instance "scene_switch_callback";
        PyCall (py_method 1 "scene_switch_callback") [2; 1];
        PyExcepthook (Exception "boom"); GilRelease].
Proof.
  intros I this h.
  apply (callback_exception_contained I this 2 1 (idle h)
           (py_method 1 "scene_switch_callback") (Exception "boom") h h);
    reflexivity.
Defined.

(** C9 fails as stated: a notification that raises [SystemExit] is not
    reported and the wrapper does not return: [PyErr_Print] ends the
    process with the exception's status, with the lock still held. *)
Lemma callback_SystemExit_ends_process :
  let I := simple_interpreter (_mididings release_build)
                              (fun _ _ => py_return tt) in
  let this := construct_Engine subclass_instance
                               "alsa" "mididings" ["in"] ["out"] false in
  let h := subclass_host (raises (SystemExit 3)) in
  scene_switch_callback I this 2 1 (idle h)
  = (NoReturn (Some 3),
     {| gil := 1%nat;
        err := Some (SystemExit 3);
        trace := [GilEnsure;
                  PyGetAttr subclass_instance "scene_switch_callback";
                  PyCall (py_method 1 "scene_switch_callback") [2; 1]];
        hst := h |}).
Proof. vm_compute. reflexivity. Qed.


(** On an [Engine] instance of the module, the notification is found
    exactly when the host layer defines it. *)
Lemma notification_lookup (cfg : config)
      (invoke_builtin : cpp_member -> list Z -> py_result unit)
      (id : nat) (h : simple_host) :
  py_getattr (simple_interpreter (_mididings cfg) invoke_builtin)
             (py_instance id) "scene_switch_callback" h
  = match lookup_attribute h id "scene_switch_callback" with
    | Some _ => (py_return (py_method id "scene_switch_callback"), h)
    | None => (py_raise (AttributeError "scene_switch_callback"), h)
    end.
Proof.
  cbn [py_getattr simple_interpreter]. unfold PyObject_GetAttr.
  destruct (lookup_attribute h id "scene_switch_callback");
    [reflexivity|].
  each_build cfg; vm_compute; reflexivity.
Qed.

(** C3 (as the code has it): the wrapper keeps the host-side instance it
    was constructed for and delivers the notification by looking up the
    attribute [scene_switch_callback] on that instance and calling what
    it finds with (scene, subscene); everything else it does is to report
    a failure of the lookup or of the call.  The constructor of [Engine]
    takes no handler and [Engine] itself defines no such attribute, so a
    handler is reached exactly when the host layer defines
    [scene_switch_callback] on the instance, as a subclass of [Engine]
    does. *)
Theorem notification_dispatch_on_self
        (cfg : config) {host : Type} (I : interpreter host)
        (self : PyObject) (b c : string) (i o : list string) (v : bool)
        (scene subscene : Z) (w : world host) :
  let this := construct_Engine self b c i o v in
  let report := fun (e : py_exception) (h : host) =>
    match e with
    | SystemExit _ => []
    | _ =>
        PyExcepthook e
        :: match fst (py_excepthook I e h) with
           | py_return _ => [GilRelease]
           | py_raise (SystemExit _) => []
           | py_raise e2 => [PyErrDisplayed e2; PyErrDisplayed e; GilRelease]
           | py_no_return _ => []
           end
    end in
  _self this = self
  /\ trace (snd (scene_switch_callback I this scene subscene w))
     = (trace w
        ++ GilEnsure
           :: PyGetAttr self "scene_switch_callback"
           :: match py_getattr I self "scene_switch_callback" (hst w) with
              | (py_return f, h1) =>
                  PyCall f [scene; subscene]
                  :: match py_call I f [scene; subscene] h1 with
                     | (py_return _, h2) =>
                         match err w with
                         | None => [GilRelease]
                         | Some _ =>
                             report (SystemError result_with_exception_set)
                                    h2
                         end
                     | (py_raise e, h2) => report e h2
                     | (py_no_return _, _) => []
                     end
              | (py_raise e, h1) => report e h1
              | (py_no_return _, _) => []
              end)%list
  /\ (forall invoke_builtin id h,
         py_getattr (simple_interpreter (_mididings cfg) invoke_builtin)
                    (py_instance id) "scene_switch_callback" h
         = match lookup_attribute h id "scene_switch_callback" with
           | Some _ => (py_return (py_method id "scene_switch_callback"), h)
           | None => (py_raise (AttributeError "scene_switch_callback"), h)
           end)
  /\ exists E,
       find_class (_mididings cfg) "Engine" = Some E
       /\ held E = Some c_EngineWrap
       /\ takes_handler E = false
       /\ existsb (String.eqb "scene_switch_callback") (attributes E)
          = false.
Proof.
  cbv zeta. split; [reflexivity|]. split; [|split].
  - cbn [construct_Engine EngineWrap_new _self]. run_wrapper.
    split_host; cbn; flatten_trace; reflexivity.
  - intros. apply notification_lookup.
  - destruct (engine_registered cfg) as (E & H1 & _ & H2 & H3 & H4).
    exists E. auto.
Qed.

(** C3 fails as stated: an instance of the exposed [Engine] type that is
    not of a host subclass receives no notification (the lookup fails and
    the error is reported), and the exposed constructor accepts no
    handler, unlike that of [Call]. *)
Lemma plain_engine_gets_no_notification :
  scene_switch_callback
    (simple_interpreter (_mididings release_build)
                        (fun _ _ => py_return tt))
    (construct_Engine plain_instance "alsa" "mididings" ["in"] ["out"]
                      false)
    2 1 (idle plain_host)
  = (Returned tt,
     {| gil := 0%nat;
        err := None;
        trace := [GilEnsure;
                  PyGetAttr plain_instance "scene_switch_callback";
                  PyExcepthook (AttributeError "scene_switch_callback");
                  GilRelease];
        hst := plain_host |})
  /\ option_map takes_handler
       (find_class (_mididings release_build) "Engine") = Some false
  /\ option_map takes_handler
       (find_class (_mididings release_build) "Call") = Some true.
Proof.
  vm_compute. repeat split.
Qed.
(* ===================================================================== *)
(** * Further properties of the module table *)
(* ===================================================================== *)

Lemma cpp_type_eqb_eq (a b : cpp_type) : cpp_type_eqb a b = true <-> a = b.
Proof.
  unfold cpp_type_eqb. destruct (cpp_type_eq_dec a b); split; congruence.
Qed.

Lemma distinct_NoDup {A : Type} (eqb : A -> A -> bool)
      (Heqb : forall x y, x = y -> eqb x y = true) (l : list A) :
  distinct eqb l = true -> NoDup l.
Proof.
  induction l as [|x t IH]; intros H; [constructor|].
  cbn in H. apply andb_prop in H as [Hx Ht]. constructor.
  - intros Hin. apply negb_true_iff in Hx.
    assert (existsb (eqb x) t = true) as E.
    { apply existsb_exists. exists x. split; [exact Hin|]. now apply Heqb. }
    congruence.
  - apply IH, Ht.
Qed.

(** X1: in every build, no two registered classes share a host name, no
    two wrap the same C++ class, and no class is named like the module's
    one free function; a lookup by name is never ambiguous. *)
Theorem names_unambiguous (cfg : config) :
  let m := _mididings cfg in
  NoDup (map py_name (all_classes m))
  /\ NoDup (map wrapped (all_classes m))
  /\ map (fun f => fst (fst f)) (functions m) = ["available_backends"]
  /\ ~ In "available_backends" (map py_name (all_classes m)).
Proof.
  cbv zeta. split; [|split; [|split]].
  - apply (distinct_NoDup String.eqb).
    + intros x y ->. apply String.eqb_refl.
    + each_build cfg; vm_compute; reflexivity.
  - apply (distinct_NoDup cpp_class_eqb).
    + intros x y ->. now apply cpp_class_eqb_eq.
    + each_build cfg; vm_compute; reflexivity.
  - each_build cfg; vm_compute; reflexivity.
  - intros Hin.
    assert (existsb (String.eqb "available_backends")
                    (map py_name (all_classes (_mididings cfg))) = true)
      as E.
    { apply existsb_exists. eexists. split; [exact Hin|].
      apply String.eqb_refl. }
    revert E. each_build cfg; vm_compute; discriminate.
Qed.

Lemma bases_known_sound (l : list registered_class) :
  forall seen pre r post b,
    bases_known seen l = true ->
    l = (pre ++ r :: post)%list ->
    In b (bases (rc_class r)) ->
    In b (seen ++ map (fun x => wrapped (rc_class x)) pre)%list.
Proof.
  induction l as [|x t IH]; intros seen pre r post b Hk Hl Hb.
  - destruct pre; discriminate Hl.
  - cbn in Hk. apply andb_prop in Hk as [Hx Ht].
    destruct pre as [|p pre'].
    + cbn in Hl. injection Hl as -> ->. cbn. rewrite app_nil_r.
      rewrite forallb_forall in Hx. specialize (Hx b Hb).
      apply existsb_exists in Hx as (y & Hy & E).
      apply cpp_class_eqb_eq in E. now subst.
    + cbn in Hl. injection Hl as -> ->.
      specialize (IH _ pre' r post b Ht eq_refl Hb).
      cbn. rewrite <- app_assoc in IH. exact IH.
Qed.

(** X2: in every build, each class named in a [bases<...>] list is
    wrapped by a registration that comes earlier in the module body than
    the derived class. *)
Theorem bases_precede_derived
        (cfg : config) (pre post : list registered_class)
        (r : registered_class) (b : cpp_class)
        (Hsplit : classes (_mididings cfg) = (pre ++ r :: post)%list)
        (Hbase : In b (bases (rc_class r))) :
  In b (map (fun x => wrapped (rc_class x)) pre).
Proof.
  apply (bases_known_sound (classes (_mididings cfg)) [] pre r post b);
    [|exact Hsplit|exact Hbase].
  each_build cfg; vm_compute; reflexivity.
Qed.

Lemma bases_precede_derived_witness :
  let l := classes (_mididings release_build) in
  let r := nth 12%nat l
               {| rc_scope := []; rc_class := mk_class c_Unit None [] true
                                                       "" no_init |} in
  py_name (rc_class r) = "TypeFilter"
  /\ In c_Filter (bases (rc_class r))
  /\ In c_Filter (map (fun x => wrapped (rc_class x)) (firstn 12 l)).
Proof.
  intros l r.
  assert (Hb : In c_Filter (bases (rc_class r))).
  { vm_compute. left. reflexivity. }
  split; [vm_compute; reflexivity|]. split; [exact Hb|].
  apply (bases_precede_derived release_build (firstn 12 l) (skipn 13 l)
                               r c_Filter); [|exact Hb].
  vm_compute. reflexivity.
Defined.

Lemma vector_parameters_checked (cfg : config) :
  forallb (vector_parameters_convertible (_mididings cfg))
          (all_classes (_mididings cfg)) = true.
Proof. each_build cfg; vm_compute; reflexivity. Qed.

(** X3: in every build, a constructor parameter of type
    [std::vector<T>], by value or by const reference, has
    [register_vector_converters<T>] among the module's registrations, so
    a host sequence can be passed for it. *)
Theorem vector_parameters_have_converters
        (cfg : config) (c : class_) (sig : list cpp_type)
        (ty t : cpp_type)
        (Hin : In c (all_classes (_mididings cfg)))
        (Hctor : ctor c = init sig)
        (Hparam : In ty sig)
        (Hvec : vector_element ty = Some t) :
  In (vector_converters t) (converters (_mididings cfg)).
Proof.
  pose proof (vector_parameters_checked cfg) as H.
  rewrite forallb_forall in H. specialize (H c Hin).
  unfold vector_parameters_convertible, parameters in H.
  rewrite Hctor, forallb_forall in H. specialize (H ty Hparam).
  rewrite Hvec in H. apply existsb_exists in H as (k & Hk & E).
  destruct k as [u| |]; try discriminate E.
  cbn in E. apply cpp_type_eqb_eq in E. now subst.
Qed.

Lemma vector_parameters_have_converters_witness :
  exists c,
    find_class (_mididings release_build) "VelocitySlope" = Some c
    /\ In (t_const_ref (t_std_vector t_float)) (parameters c)
    /\ In (vector_converters t_float)
          (converters (_mididings release_build)).
Proof.
  exists (unit_class c_VelocitySlope c_Unit "VelocitySlope"
            (init [std_vector_int_cref; std_vector_float_cref; t_int])).
  split; [vm_compute; reflexivity|].
  split; [cbn; auto|].
  apply (vector_parameters_have_converters release_build
           (unit_class c_VelocitySlope c_Unit "VelocitySlope"
              (init [std_vector_int_cref; std_vector_float_cref; t_int]))
           [std_vector_int_cref; std_vector_float_cref; t_int]
           std_vector_float_cref t_float).
  - vm_compute. do 26 right. left. reflexivity.
  - reflexivity.
  - cbn. auto.
  - reflexivity.
Defined.

Lemma shared_parameters_checked (cfg : config) :
  forallb (shared_parameters_abstract (_mididings cfg))
          (all_classes (_mididings cfg)) = true.
Proof. each_build cfg; vm_compute; reflexivity. Qed.

(** X4: in every build, a constructor parameter of type
    [boost::shared_ptr<K>] names a class [K] that the module registers,
    and registers without constructor: the host passes units it built
    from the concrete classes, never a bare [K]. *)
Theorem shared_parameters_are_abstract_bases
        (cfg : config) (c : class_) (sig : list cpp_type) (k : cpp_class)
        (Hin : In c (all_classes (_mididings cfg)))
        (Hctor : ctor c = init sig)
        (Hparam : In (t_shared_ptr k) sig) :
  exists c', In c' (all_classes (_mididings cfg))
             /\ wrapped c' = k /\ ctor c' = no_init.
Proof.
  pose proof (shared_parameters_checked cfg) as H.
  rewrite forallb_forall in H. specialize (H c Hin).
  unfold shared_parameters_abstract, parameters in H.
  rewrite Hctor, forallb_forall in H. specialize (H _ Hparam).
  cbn in H. apply existsb_exists in H as (c' & Hc' & E).
  apply andb_prop in E as [E1 E2]. apply cpp_class_eqb_eq in E1.
  exists c'. split; [exact Hc'|]. split; [exact E1|].
  unfold constructible in E2. destruct (ctor c'); [reflexivity|discriminate].
Qed.

Lemma shared_parameters_are_abstract_bases_witness :
  exists c',
    In c' (all_classes (_mididings release_build))
    /\ wrapped c' = c_Filter /\ ctor c' = no_init.
Proof.
  apply (shared_parameters_are_abstract_bases release_build
           (unit_class c_InvertedFilter c_Filter "InvertedFilter"
              (init [t_shared_ptr c_Filter; t_bool]))
           [t_shared_ptr c_Filter; t_bool] c_Filter).
  - vm_compute. do 13 right. left. reflexivity.
  - reflexivity.
  - cbn. auto.
Defined.

Lemma scopes_checked (cfg : config) :
  forallb (fun r =>
             if list_eq_dec string_dec (rc_scope r)
                  (if is_a (_mididings cfg) c_Patch_Module
                          (wrapped (rc_class r))
                   then ["Patch"] else [])
             then true else false)
          (classes (_mididings cfg)) = true.
Proof. each_build cfg; vm_compute; reflexivity. Qed.

(** X5: in every build, the classes registered inside the scope of
    [Patch] are exactly those of the [Module] family; every other class
    is an attribute of the module itself, and the scope is back at the
    module when initialisation ends. *)
Theorem scope_is_Patch_for_modules
        (cfg : config) (r : registered_class)
        (Hin : In r (classes (_mididings cfg))) :
  rc_scope r
  = (if is_a (_mididings cfg) c_Patch_Module (wrapped (rc_class r))
     then ["Patch"] else [])
  /\ current_scope (_mididings cfg) = [].
Proof.
  split.
  - pose proof (scopes_checked cfg) as H.
    rewrite forallb_forall in H. specialize (H r Hin). cbn beta in H.
    destruct (list_eq_dec string_dec _ _) as [E|]; [exact E|discriminate].
  - each_build cfg; vm_compute; reflexivity.
Qed.

Lemma scope_is_Patch_for_modules_witness :
  let r := {| rc_scope := ["Patch"];
              rc_class := mk_class c_Patch_Fork None [c_Patch_Module] true
                                   "Fork"
                                   (init [t_Patch_ModuleVector; t_bool]) |} in
  In r (classes (_mididings release_build))
  /\ rc_scope r
     = (if is_a (_mididings release_build) c_Patch_Module
                (wrapped (rc_class r))
        then ["Patch"] else [])
  /\ current_scope (_mididings release_build) = [].
Proof.
  intros r.
  assert (Hin : In r (classes (_mididings release_build))).
  { vm_compute. do 4 right. left. reflexivity. }
  split; [exact Hin|].
  apply (scope_is_Patch_for_modules release_build r Hin).
Defined.


Lemma families_checked (cfg : config) :
  forallb (fun c => Nat.eqb (List.length (filter (fun b => b)
                                            (families (_mididings cfg) c)))
                            1)
          (all_classes (_mididings cfg)) = true.
Proof. each_build cfg; vm_compute; reflexivity. Qed.

(** X7: in every build, a registered class belongs to exactly one of:
    the engine, the patch, the event, the [Module] family, the [Unit]
    family, the [UnitEx] family.  In particular no class is both a
    [Unit] and a [UnitEx]. *)
Theorem families_partition
        (cfg : config) (c : class_)
        (Hin : In c (all_classes (_mididings cfg))) :
  List.length (filter (fun b => b) (families (_mididings cfg) c)) = 1%nat.
Proof.
  pose proof (families_checked cfg) as H.
  rewrite forallb_forall in H. specialize (H c Hin).
  now apply Nat.eqb_eq in H.
Qed.

Lemma families_partition_witness :
  let c := unit_class c_KeyFilter c_Filter "KeyFilter"
                      (init [t_int; t_int; std_vector_int_cref]) in
  In c (all_classes (_mididings test_build))
  /\ List.length (filter (fun b => b) (families (_mididings test_build) c))
     = 1%nat.
Proof.
  intros c.
  assert (Hin : In c (all_classes (_mididings test_build))).
  { vm_compute. do 16 right. left. reflexivity. }
  split; [exact Hin|].
  apply (families_partition test_build c Hin).
Defined.

Lemma handlers_checked (cfg : config) :
  forallb (fun c => Bool.eqb (takes_handler c)
                             (cpp_class_eqb (wrapped c) c_Call)
                    && (cpp_class_eqb (wrapped c) c_Engine
                        || cpp_class_eqb (wrapped c) c_MidiEvent
                        || match defs c with [] => true | _ => false end))
          (all_classes (_mididings cfg)) = true.
Proof. each_build cfg; vm_compute; reflexivity. Qed.

(** X8: in every build, [Call] is the one class whose constructor accepts
    an arbitrary host object; no other constructor can receive a host
    callable. *)
Theorem only_Call_takes_host_object
        (cfg : config) (c : class_)
        (Hin : In c (all_classes (_mididings cfg))) :
  takes_handler c = true <-> wrapped c = c_Call.
Proof.
  pose proof (handlers_checked cfg) as H.
  rewrite forallb_forall in H. specialize (H c Hin).
  apply andb_prop in H as [H _]. apply Bool.eqb_prop in H.
  rewrite H. apply cpp_class_eqb_eq.
Qed.

Lemma only_Call_takes_host_object_witness :
  let c := unit_class c_Call c_UnitEx "Call"
                      (init [t_bp_object; t_bool; t_bool]) in
  In c (all_classes (_mididings release_build))
  /\ (takes_handler c = true <-> wrapped c = c_Call).
Proof.
  intros c.
  assert (Hin : In c (all_classes (_mididings release_build))).
  { vm_compute. do 36 right. left. reflexivity. }
  split; [exact Hin|].
  apply (only_Call_takes_host_object release_build c Hin).
Defined.

(** X9: in every build, the classes of the processing graph are
    construct-only: apart from [Engine] and [MidiEvent], no registered
    class has a method, a field or an operator, so the host cannot read
    or change a unit, a module or a patch once it is built. *)
Theorem graph_classes_construct_only
        (cfg : config) (c : class_)
        (Hin : In c (all_classes (_mididings cfg)))
        (HnE : wrapped c <> c_Engine)
        (HnM : wrapped c <> c_MidiEvent) :
  defs c = [] /\ attributes c = [].
Proof.
  pose proof (handlers_checked cfg) as H.
  rewrite forallb_forall in H. specialize (H c Hin).
  apply andb_prop in H as [_ H].
  destruct (cpp_class_eqb (wrapped c) c_Engine) eqn:E1.
  { apply cpp_class_eqb_eq in E1. contradiction. }
  destruct (cpp_class_eqb (wrapped c) c_MidiEvent) eqn:E2.
  { apply cpp_class_eqb_eq in E2. contradiction. }
  cbn in H. unfold attributes.
  destruct (defs c); [split; reflexivity|discriminate].
Qed.

Lemma graph_classes_construct_only_witness :
  let c := mk_class c_Patch None [] true "Patch"
                    (init [t_Patch_ModulePtr]) in
  In c (all_classes (_mididings release_build))
  /\ defs c = [] /\ attributes c = [].
Proof.
  intros c.
  assert (Hin : In c (all_classes (_mididings release_build))).
  { vm_compute. right. left. reflexivity. }
  split; [exact Hin|].
  apply (graph_classes_construct_only release_build c Hin);
    discriminate.
Defined.

(* ===================================================================== *)
(** * Further properties of MidiEvent *)
(* ===================================================================== *)

Section Accessors.

Variable c : class_.
Hypothesis Hc :
  c = mk_class c_MidiEvent None [] false "MidiEvent" (init [])
      |> def_readwrite "type" (member c_MidiEvent "type")
      |> def_readwrite "port_" (member c_MidiEvent "port")
      |> def_readwrite "channel_" (member c_MidiEvent "channel")
      |> def_readwrite "data1" (member c_MidiEvent "data1")
      |> def_readwrite "data2" (member c_MidiEvent "data2")
      |> def_with "_get_sysex_data"
           (member c_MidiEvent "get_sysex_data") return_by_value
      |> def "_set_sysex_data" (member c_MidiEvent "set_sysex_data")
      |> def_operator op_eq
      |> def_operator op_ne
      |> enable_pickling.

Lemma getattr_by_name (name : string) (e : MidiEvent) :
  getattr c name e
  = if String.eqb "type" name then Some (PyInt (type e))
    else if String.eqb "port_" name then Some (PyInt (port e))
    else if String.eqb "channel_" name then Some (PyInt (channel e))
    else if String.eqb "data1" name then Some (PyInt (data1 e))
    else if String.eqb "data2" name then Some (PyInt (data2 e))
    else None.
Proof.
  subst c. unfold getattr, find_def.
  cbn [find defs attribute_name add_def def def_with def_readwrite
       def_operator enable_pickling mk_class app].
  repeat (match goal with
          | |- context [String.eqb ?a name] =>
              destruct (String.eqb a name); [reflexivity|]
          end).
  reflexivity.
Qed.

Lemma setattr_by_name (name : string) (v : py_value) (e : MidiEvent) :
  setattr c name v e
  = match to_int v with
    | Some z =>
        if String.eqb "type" name then
          Some {| type := z; port := port e; channel := channel e;
                  data1 := data1 e; data2 := data2 e; sysex := sysex e |}
        else if String.eqb "port_" name then
          Some {| type := type e; port := z; channel := channel e;
                  data1 := data1 e; data2 := data2 e; sysex := sysex e |}
        else if String.eqb "channel_" name then
          Some {| type := type e; port := port e; channel := z;
                  data1 := data1 e; data2 := data2 e; sysex := sysex e |}
        else if String.eqb "data1" name then
          Some {| type := type e; port := port e; channel := channel e;
                  data1 := z; data2 := data2 e; sysex := sysex e |}
        else if String.eqb "data2" name then
          Some {| type := type e; port := port e; channel := channel e;
                  data1 := data1 e; data2 := z; sysex := sysex e |}
        else None
    | None => None
    end.
Proof.
  subst c. unfold setattr, find_def.
  cbn [find defs attribute_name add_def def def_with def_readwrite
       def_operator enable_pickling mk_class app].
  repeat (match goal with
          | |- context [String.eqb ?a name] =>
              destruct (String.eqb a name);
              [unfold write_member; destruct (to_int v); reflexivity|]
          end).
  destruct (to_int v); reflexivity.
Qed.

End Accessors.

Lemma MidiEvent_class_unique (cfg : config) (c : class_) :
  find_class (_mididings cfg) "MidiEvent" = Some c ->
  c = mk_class c_MidiEvent None [] false "MidiEvent" (init [])
      |> def_readwrite "type" (member c_MidiEvent "type")
      |> def_readwrite "port_" (member c_MidiEvent "port")
      |> def_readwrite "channel_" (member c_MidiEvent "channel")
      |> def_readwrite "data1" (member c_MidiEvent "data1")
      |> def_readwrite "data2" (member c_MidiEvent "data2")
      |> def_with "_get_sysex_data"
           (member c_MidiEvent "get_sysex_data") return_by_value
      |> def "_set_sysex_data" (member c_MidiEvent "set_sysex_data")
      |> def_operator op_eq
      |> def_operator op_ne
      |> enable_pickling.
Proof.
  intros H. destruct (MidiEvent_registered cfg) as (c0 & H0 & Hc0).
  congruence.
Qed.



(** X11: assigning an attribute of an event and reading it back gives
    the assigned value; every other data attribute and the sysex payload
    are what they were. *)
Theorem event_assignment_is_local
        (cfg : config) (c : class_) (name : string) (v : py_value)
        (e e' : MidiEvent)
        (Hfind : find_class (_mididings cfg) "MidiEvent" = Some c)
        (Hset : setattr c name v e = Some e') :
  getattr c name e' = Some v
  /\ (forall other, other <> name ->
                    getattr c other e' = getattr c other e)
  /\ sysex e' = sysex e.
Proof.
  apply MidiEvent_class_unique in Hfind.
  rewrite (setattr_by_name c Hfind) in Hset.
  destruct v as [z|l]; [|discriminate Hset].
  cbn [to_int] in Hset. destruct (int_range z); [|discriminate Hset].
  assert (Hframe :
            forall a, String.eqb a name = true ->
                      forall other, other <> name ->
                                    String.eqb a other = false).
  { intros a Ha other Hne. apply String.eqb_eq in Ha. subst a.
    apply String.eqb_neq. congruence. }
  destruct (String.eqb "type" name) eqn:E1;
    [|destruct (String.eqb "port_" name) eqn:E2;
      [|destruct (String.eqb "channel_" name) eqn:E3;
        [|destruct (String.eqb "data1" name) eqn:E4;
          [|destruct (String.eqb "data2" name) eqn:E5;
            [|discriminate Hset]]]]];
    injection Hset as <-;
    (split; [rewrite (getattr_by_name c Hfind);
             repeat match goal with
                    | H : String.eqb _ name = _ |- _ => rewrite H
                    end; reflexivity|]);
    (split; [|reflexivity]);
    intros other Hne; rewrite !(getattr_by_name c Hfind);
    match goal with
    | H : String.eqb ?a name = true |- _ =>
        rewrite (Hframe a H other Hne)
    end;
    repeat match goal with
           | |- context [String.eqb ?a other] =>
               destruct (String.eqb a other); [reflexivity|]
           end; reflexivity.
Qed.

Lemma event_assignment_is_local_witness :
  exists c e',
    find_class (_mididings release_build) "MidiEvent" = Some c
    /\ setattr c "data1" (PyInt 60) MidiEvent_default = Some e'
    /\ getattr c "data1" e' = Some (PyInt 60)
    /\ getattr c "data2" e' = Some (PyInt 0).
Proof.
  destruct (MidiEvent_registered release_build) as (c & Hfind & Hc).
  exists c.
  exists {| type := 0; port := 0; channel := 0; data1 := 60; data2 := 0;
            sysex := [] |}.
  assert (Hset : setattr c "data1" (PyInt 60) MidiEvent_default
                 = Some {| type := 0; port := 0; channel := 0; data1 := 60;
                           data2 := 0; sysex := [] |})
    by (subst c; reflexivity).
  split; [exact Hfind|]. split; [exact Hset|].
  destruct (event_assignment_is_local release_build c "data1" (PyInt 60)
              MidiEvent_default _ Hfind Hset) as (H1 & H2 & _).
  split; [exact H1|].
  rewrite (H2 "data2"); [subst c; reflexivity|discriminate].
Defined.

(* ===================================================================== *)
(** * Further properties of the notification wrapper *)
(* ===================================================================== *)

Lemma calls_app (a b : list action) :
  calls (a ++ b) = (calls a ++ calls b)%list.
Proof. unfold calls. apply flat_map_app. Qed.

Lemma lock_actions_app (a b : list action) :
  lock_actions (a ++ b) = (lock_actions a ++ lock_actions b)%list.
Proof. unfold lock_actions. apply filter_app. Qed.

Section Delivery.

Context {host : Type}.
Variable I : interpreter host.
Variable this : EngineWrap.

(** X12: when the lookup of [scene_switch_callback] on the host instance
    fails with anything but [SystemExit], and [sys.excepthook] comes
    back, the wrapper calls no handler: it hands the failure to the hook,
    clears the error indicator, gives the lock back and returns
    normally. *)
Theorem notification_without_handler
        (scene subscene : Z) (w : world host) (e : py_exception) (h1 : host)
        (Hmissing : py_getattr I (_self this) "scene_switch_callback"
                               (hst w)
                    = (py_raise e, h1))
        (Hkind : is_SystemExit e = false)
        (Hhook : comes_back (fst (py_excepthook I e h1)) = true) :
  let r := scene_switch_callback I this scene subscene w in
  fst r = Returned tt
  /\ gil (snd r) = gil w
  /\ err (snd r) = None
  /\ calls (trace (snd r)) = calls (trace w)
  /\ trace (snd r)
     = (trace w
        ++ [GilEnsure; PyGetAttr (_self this) "scene_switch_callback";
            PyExcepthook e]
        ++ match fst (py_excepthook I e h1) with
           | py_raise e2 => [PyErrDisplayed e2; PyErrDisplayed e]
           | _ => []
           end
        ++ [GilRelease])%list.
Proof.
  cbv zeta. run_wrapper. destruct w as [g er tr h]. cbn in *.
  rewrite Hmissing. cbn.
  destruct e; try discriminate Hkind; cbn;
    match goal with
    | |- context [py_excepthook I ?x h1] =>
        destruct (py_excepthook I x h1) as [[[]|e2|s] h3]
    end;
    cbn in *; try discriminate Hhook;
    try (destruct e2; try discriminate Hhook);
    cbn; flatten_trace; rewrite ?calls_app; cbn; rewrite ?app_nil_r;
    repeat split.
Qed.

(** X13: when no error is pending on entry, the notification is found
    and the call returns, the wrapper returns having done exactly: take
    the lock, look the notification up, call it with (scene, subscene),
    give the lock back.  The lock depth is as on entry, the error
    indicator is clear, and the host is as its own code left it. *)
Theorem notification_returning_normally
        (scene subscene : Z) (w : world host) (f : PyObject) (h1 h2 : host)
        (Herr : err w = None)
        (Hfound : py_getattr I (_self this) "scene_switch_callback" (hst w)
                  = (py_return f, h1))
        (Hreturn : py_call I f [scene; subscene] h1 = (py_return tt, h2)) :
  scene_switch_callback I this scene subscene w
  = (Returned tt,
     {| gil := gil w;
        err := None;
        trace := (trace w
                  ++ [GilEnsure;
                      PyGetAttr (_self this) "scene_switch_callback";
                      PyCall f [scene; subscene];
                      GilRelease])%list;
        hst := h2 |}).
Proof.
  run_wrapper. destruct w as [g er tr h]. cbn in *. subst er.
  rewrite Hfound. cbn. rewrite Hreturn.
  cbn -[app]. unfold PyGILState_Release, set_host, log. cbn -[app].
  flatten_trace. reflexivity.
Qed.

(** X15: whatever the host code does, the wrapper never lets a C++
    exception out and never uses the interpreter without the lock or
    without an error to report: either it returns normally, with the lock
    depth as on entry, the error indicator clear and the lock given back
    as its last step, or control never comes back from the host. *)
Theorem wrapper_returns_or_never_comes_back
        (scene subscene : Z) (w : world host) :
  let r := scene_switch_callback I this scene subscene w in
  (fst r = Returned tt
   /\ gil (snd r) = gil w
   /\ err (snd r) = None
   /\ exists front, trace (snd r) = (trace w ++ front ++ [GilRelease])%list)
  \/ (exists s, fst r = NoReturn s).
Proof.
  cbv zeta.
  destruct (wrapper_shape I this scene subscene w)
    as (mid & tail & Htr & _ & [(-> & Hr & Hg & He)|(_ & s & Hs)]).
  - left. repeat split; auto.
    exists (GilEnsure :: PyGetAttr (_self this) "scene_switch_callback"
                      :: mid).
    rewrite Htr. cbn. reflexivity.
  - right. eauto.
Qed.

Section Sequence.

(** What the host program keeps true of its own state. *)
Variable Inv : host -> Prop.

Hypothesis Hget :
  forall h, Inv h ->
    exists f, fst (py_getattr I (_self this) "scene_switch_callback" h)
              = py_return f
              /\ Inv (snd (py_getattr I (_self this)
                                      "scene_switch_callback" h)).
Hypothesis Hcall :
  forall f args h, Inv h ->
    comes_back (fst (py_call I f args h)) = true
    /\ Inv (snd (py_call I f args h)).
Hypothesis Hhook :
  forall e h, Inv h ->
    comes_back (fst (py_excepthook I e h)) = true
    /\ Inv (snd (py_excepthook I e h)).

Lemma notification_step (scene subscene : Z) (w : world host) :
  Inv (hst w) -> err w = None ->
  let r := scene_switch_callback I this scene subscene w in
  fst r = Returned tt
  /\ gil (snd r) = gil w
  /\ err (snd r) = None
  /\ Inv (hst (snd r))
  /\ calls (trace (snd r)) = (calls (trace w) ++ [[scene; subscene]])%list
  /\ lock_actions (trace (snd r))
     = (lock_actions (trace w) ++ [GilEnsure; GilRelease])%list.
Proof.
  intros Hi He. cbv zeta. run_wrapper. destruct w as [g er tr h].
  cbn in *. subst er.
  destruct (Hget h Hi) as (f & Hf & Hi1).
  destruct (py_getattr I (_self this) "scene_switch_callback" h)
    as [r1 h1]. cbn in Hf, Hi1. subst r1. cbn.
  destruct (Hcall f [scene; subscene] h1 Hi1) as [Hc Hi2].
  destruct (py_call I f [scene; subscene] h1) as [[[]|e|s] h2];
    cbn in Hc, Hi2; try discriminate Hc; cbn.
  - flatten_trace. rewrite calls_app, lock_actions_app. cbn.
    repeat split; auto.
  - destruct e; try discriminate Hc; cbn;
      match goal with
      | |- context [py_excepthook I ?x h2] =>
          destruct (Hhook x h2 Hi2) as [Hk Hi3];
          destruct (py_excepthook I x h2) as [[[]|e2|s] h3]
      end;
      cbn in Hk, Hi3; try discriminate Hk;
      try (destruct e2; try discriminate Hk);
      cbn; flatten_trace; rewrite calls_app, lock_actions_app; cbn;
      repeat split; auto.
Qed.

(** X14: as long as the host keeps the notification defined on the
    instance and its code comes back (no [SystemExit], no exit of the
    process), a run of notifications started with no error pending
    reaches the handler once per notification, in order and with that
    notification's (scene, subscene), whether or not earlier calls
    raised; the run returns normally, takes and gives back the lock once
    per notification, and ends at the lock depth it started from. *)
Theorem notifications_all_delivered
        (l : list (Z * Z)) (w : world host)
        (Hinit : Inv (hst w)) (Herr : err w = None) :
  let r := notifications I this l w in
  fst r = Returned tt
  /\ gil (snd r) = gil w
  /\ err (snd r) = None
  /\ calls (trace (snd r))
     = (calls (trace w) ++ map (fun p => [fst p; snd p]) l)%list
  /\ lock_actions (trace (snd r))
     = (lock_actions (trace w)
        ++ flat_map (fun _ => [GilEnsure; GilRelease]) l)%list.
Proof.
  cbv zeta. revert w Hinit Herr.
  induction l as [|[scene subscene] t IH]; intros w Hinit Herr.
  - cbn. rewrite !app_nil_r. auto.
  - cbn [notifications]. unfold bind.
    destruct (notification_step scene subscene w Hinit Herr)
      as (H1 & H2 & H3 & H4 & H5 & H6).
    destruct (scene_switch_callback I this scene subscene w) as [o w1].
    cbn [fst snd] in *. subst o.
    destruct (IH w1 H4 H3) as (K1 & K2 & K3 & K5 & K6).
    split; [exact K1|]. split; [congruence|]. split; [exact K3|]. split.
    + rewrite K5, H5. cbn [map fst snd]. rewrite <- app_assoc.
      reflexivity.
    + rewrite K6, H6. cbn [flat_map]. rewrite <- app_assoc. reflexivity.
Qed.

End Sequence.

End Delivery.

Lemma notification_without_handler_witness :
  let I := simple_interpreter (_mididings test_build)
                              (fun _ _ => py_return tt) in
  let this := construct_Engine plain_instance "jack" "mididings" [] []
                               true in
  let w := {| gil := 1%nat; err := None; trace := [GilEnsure];
              hst := plain_host |} in
  let r := scene_switch_callback I this 5 0 w in
  fst r = Returned tt
  /\ gil (snd r) = 1%nat
  /\ err (snd r) = None
  /\ calls (trace (snd r)) = []
  /\ trace (snd r)
     = [GilEnsure; GilEnsure;
        PyGetAttr plain_instance "scene_switch_callback";
        PyExcepthook (AttributeError "scene_switch_callback");
        GilRelease].
Proof.
  intros I this w.
  apply (notification_without_handler I this 5 0 w
           (AttributeError "scene_switch_callback") plain_host);
    vm_compute; reflexivity.
Defined.

Lemma notification_returning_normally_witness :
  let I := simple_interpreter (_mididings release_build)
                              (fun _ _ => py_return tt) in
  let this := construct_Engine subclass_instance
                               "alsa" "mididings" ["in"] ["out"] false in
  let h := subclass_host (forgets "scene_switch_callback" returns) in
  scene_switch_callback I this 3 0 (idle h)
  = (Returned tt,
     {| gil := 0%nat;
        err := None;
        trace := [GilEnsure;
                  PyGetAttr subclass_instance "scene_switch_callback";
                  PyCall (py_method 1 "scene_switch_callback") [3; 0];
                  GilRelease];
        hst := {| instances := [(1%nat, [])]; hook := None |} |}).
Proof.
  intros I this h.
  apply (notification_returning_normally I this 3 0 (idle h)
           (py_method 1 "scene_switch_callback") h
           {| instances := [(1%nat, [])]; hook := None |});
    reflexivity.
Defined.

Lemma notifications_all_delivered_witness :
  let I := simple_interpreter (_mididings release_build)
                              (fun _ _ => py_return tt) in
  let this := construct_Engine subclass_instance
                               "alsa" "mididings" ["in"] ["out"] false in
  let h := subclass_host (raises (Exception "no such scene")) in
  let r := notifications I this [(1, 0); (2, 0)] (idle h) in
  fst r = Returned tt
  /\ gil (snd r) = 0%nat
  /\ err (snd r) = None
  /\ calls (trace (snd r)) = [[1; 0]; [2; 0]]
  /\ lock_actions (trace (snd r))
     = [GilEnsure; GilRelease; GilEnsure; GilRelease].
Proof.
  intros I this h.
  apply (notifications_all_delivered I this (fun x => x = h)).
  - intros x ->. eexists. split; reflexivity.
  - intros f args x ->. subst I h.
    destruct f as [id|owner name|owner g]; cbn; [auto| |auto].
    unfold lookup_attribute, attributes_of.
    destruct owner as [|[|owner]]; cbn -[String.eqb]; auto.
    destruct (String.eqb "scene_switch_callback" name); cbn; auto.
  - intros e x ->. subst I h. cbn. auto.
  - reflexivity.
  - reflexivity.
Defined.
